(** * Student management system: the record store of [main.py]

    The program keeps student records (roll number, name, marks) as
    comma-separated lines of the text file [students.txt] and offers four
    operations on it: add, view, search and delete.

    Modelling choices.
    - A Python [str] is a [string]; characters are the code points below
      256, which is enough for the delimiters and for the white space that
      [str.strip] removes.
    - The file holds the characters that were written to it: the line
      separator of the system is the line feed, so writing translates
      nothing. Reading in text mode delivers a carriage return, alone or
      followed by a line feed, as one line feed (universal newlines), and
      a line ends at a line feed.
    - The lines typed at the [input] prompts are the arguments of the
      operations; the prompts themselves are not recorded.
    - [print] appends its argument to the console, one entry per call.
    - Exceptions are results: [FileNotFoundError] when a missing file is
      opened for reading, [ValueError] when a line does not unpack into
      three fields. Other failures of the environment are not modelled. *)

From Stdlib Require Import String Ascii List Bool NArith Arith Lia.
Import ListNotations.
Open Scope list_scope.
Open Scope string_scope.

(** ** Characters and strings *)

Definition LF : ascii := "010"%char.
Definition CR : ascii := "013"%char.
Definition comma : ascii := ","%char.

(** [str.isspace] on one character, for code points below 256:
    U+0009..U+000D, U+001C..U+0020, U+0085 and U+00A0. *)
Definition isspace (c : ascii) : bool :=
  let n := N_of_ascii c in
  (((9 <=? n) && (n <=? 13)) || ((28 <=? n) && (n <=? 32))
   || (n =? 133) || (n =? 160))%N.

(** [str.lstrip()], [str.rstrip()] and [str.strip()] without argument. *)
Fixpoint lstrip (s : string) : string :=
  match s with
  | EmptyString => EmptyString
  | String c s' => if isspace c then lstrip s' else s
  end.

Fixpoint rstrip (s : string) : string :=
  match s with
  | EmptyString => EmptyString
  | String c s' =>
      match rstrip s' with
      | EmptyString => if isspace c then EmptyString else String c EmptyString
      | t => String c t
      end
  end.

Definition strip (s : string) : string := lstrip (rstrip s).

(** [s.split(",")]: one field more than there are commas, empty fields
    included. *)
Fixpoint split (s : string) : list string :=
  match s with
  | EmptyString => [EmptyString]
  | String c s' =>
      if Ascii.eqb c comma then EmptyString :: split s'
      else match split s' with
           | f :: fs => String c f :: fs
           | [] => [String c EmptyString]
           end
  end.

(** What a read in text mode makes of the characters of the file: a
    carriage return becomes a line feed, and a line feed that comes right
    after a carriage return is dropped. [after_cr] tells that the
    character before was a carriage return. *)
Fixpoint translate (after_cr : bool) (s : string) : string :=
  match s with
  | EmptyString => EmptyString
  | String c s' =>
      if Ascii.eqb c CR then String LF (translate true s')
      else if Ascii.eqb c LF && after_cr then translate false s'
      else String c (translate false s')
  end.

Definition universal_newlines (s : string) : string := translate false s.

(** The lines of a text, each with its line feed; a last line without one
    is kept as it is. *)
Fixpoint splitlines (s : string) : list string :=
  match s with
  | EmptyString => []
  | String c s' =>
      if Ascii.eqb c LF then String c EmptyString :: splitlines s'
      else match splitlines s' with
           | l :: ls => String c l :: ls
           | [] => [String c EmptyString]
           end
  end.

(** The lines of the file as a read in text mode delivers them. This is
    what iterating over the file and [f.readlines()] both give. *)
Definition readlines (s : string) : list string :=
  splitlines (universal_newlines s).

(** Concatenation of the strings of a list: what successive [f.write]
    calls leave in the file. *)
Fixpoint join (ls : list string) : string :=
  match ls with
  | [] => EmptyString
  | l :: ls' => l ++ join ls'
  end.

(** ** The world: the file and the console *)

Inductive exn : Type :=
| FileNotFoundError
| ValueError.

Record world : Type := World {
  disk : option string;      (* students.txt; [None] when it does not exist *)
  stdout : list string       (* what was printed, oldest first *)
}.

Inductive result (A : Type) : Type :=
| Return (a : A)
| Raise (e : exn).
Arguments Return {A} a.
Arguments Raise {A} e.

Definition M (A : Type) : Type := world -> result A * world.

Definition ret {A} (a : A) : M A := fun w => (Return a, w).

Definition bind {A B} (m : M A) (k : A -> M B) : M B :=
  fun w =>
    match m w with
    | (Return a, w') => k a w'
    | (Raise e, w') => (Raise e, w')
    end.

Definition raise {A} (e : exn) : M A := fun w => (Raise e, w).

Notation "x <- m ;; k" := (bind m (fun x => k))
  (at level 61, m at next level, right associativity).
Notation "' p <- m ;; k" := (bind m (fun x => match x with p => k end))
  (at level 61, p pattern, m at next level, right associativity).
Notation "m ;; k" := (bind m (fun _ => k))
  (at level 61, right associativity).

(** [try: body except FileNotFoundError: handler]; any other exception
    goes through. *)
Definition try_except_FileNotFoundError {A} (body handler : M A) : M A :=
  fun w =>
    match body w with
    | (Raise FileNotFoundError, w') => handler w'
    | r => r
    end.

Definition print (s : string) : M unit :=
  fun w => (Return tt, {| disk := disk w; stdout := stdout w ++ [s] |}).

(** [open("students.txt", "r")], read to the end as lines. *)
Definition open_r : M (list string) :=
  fun w =>
    match disk w with
    | None => (Raise FileNotFoundError, w)
    | Some content => (Return (readlines content), w)
    end.

(** [open("students.txt", "a")] creates the file when it is missing. *)
Definition open_a : M unit :=
  fun w =>
    (Return tt,
     {| disk := Some (match disk w with Some content => content
                                      | None => EmptyString end);
        stdout := stdout w |}).

(** [open("students.txt", "w")] creates the file or empties it. *)
Definition open_w : M unit :=
  fun w => (Return tt, {| disk := Some EmptyString; stdout := stdout w |}).

(** [f.write(s)] on a file opened for appending or writing, which
    therefore exists; the text reaches the file when the [with] block is
    left, also by an exception. *)
Definition write (s : string) : M unit :=
  fun w =>
    (Return tt,
     {| disk := match disk w with
                | Some content => Some (content ++ s)
                | None => None
                end;
        stdout := stdout w |}).

(** [for x in xs: ...] with the variables the body assigns passed along;
    the body says whether the loop goes on or is left by [break]. *)
Inductive flow (S : Type) : Type :=
| Next (s : S)
| Break (s : S).
Arguments Next {S} s.
Arguments Break {S} s.

Fixpoint for_in {A S} (xs : list A) (s : S) (body : A -> S -> M (flow S))
  : M S :=
  match xs with
  | [] => ret s
  | x :: xs' =>
      f <- body x s ;;
      match f with
      | Next s' => for_in xs' s' body
      | Break s' => ret s'
      end
  end.

(** [roll, name, marks = fields]: exactly three values, or [ValueError]. *)
Definition unpack3 (fields : list string) : M (string * string * string) :=
  match fields with
  | [roll; name; marks] => ret (roll, name, marks)
  | _ => raise ValueError
  end.

(** ** The four operations *)

(** [add_student]; [roll], [name] and [marks] are what the three [input]
    calls return. *)
Definition add_student (roll name marks : string) : M unit :=
  open_a ;;                                   (* with open(.., "a") as f: *)
  write (roll ++ "," ++ name ++ "," ++ marks ++ String LF "") ;;
                                 (* f.write(f"{roll},{name},{marks}\n") *)
  print "Student added successfully!".

(** The row [f"{roll} | {name} | {marks}"]. *)
Definition row (roll name marks : string) : string :=
  roll ++ " | " ++ name ++ " | " ++ marks.

Definition view_students : M unit :=
  try_except_FileNotFoundError                (* try: *)
    (f <- open_r ;;                           (* with open(.., "r") as f: *)
     print (String LF "Roll | Name | Marks") ;;
     print "-------------------" ;;
     for_in f tt (fun line _ =>               (* for line in f: *)
       '(roll, name, marks) <- unpack3 (split (strip line)) ;;
       print (row roll name marks) ;;
       ret (Next tt)))
    (print "No records found.").              (* except FileNotFoundError: *)

(** [search_student]; [roll_no] is what [input] returns. *)
Definition search_student (roll_no : string) : M unit :=
  f <- open_r ;;                              (* with open(.., "r") as f: *)
  found <- for_in f false (fun line found =>  (* found = False; for line in f: *)
    '(roll, name, marks) <- unpack3 (split (strip line)) ;;
    if String.eqb roll roll_no then           (* if roll == roll_no: *)
      print ("Found: " ++ row roll name marks) ;;
      ret (Break true)                        (* found = True; break *)
    else ret (Next found)) ;;
  if negb found then print "Student not found." else ret tt.

(** [delete_student]; [roll_no] is what [input] returns. *)
Definition delete_student (roll_no : string) : M unit :=
  lines <- open_r ;;                          (* lines = f.readlines() *)
  open_w ;;                                   (* with open(.., "w") as f: *)
  found <- for_in lines false (fun line found => (* for line in lines: *)
    '(roll, name, marks) <- unpack3 (split (strip line)) ;;
    if negb (String.eqb roll roll_no) then    (* if roll != roll_no: *)
      write line ;;                           (* f.write(line) *)
      ret (Next found)
    else ret (Next true)) ;;                  (* else: found = True *)
  if found then print "Student deleted successfully."
  else print "Student not found.".

(** The menu loop reads a choice and runs one operation; a session is the
    list of the operations chosen. An exception that leaves an operation
    ends the program, so the rest of the session is not run. *)
Inductive command : Type :=
| Add (roll name marks : string)
| View
| Search (roll_no : string)
| Delete (roll_no : string).

Definition run_command (c : command) : M unit :=
  match c with
  | Add roll name marks => add_student roll name marks
  | View => view_students
  | Search roll_no => search_student roll_no
  | Delete roll_no => delete_student roll_no
  end.

Fixpoint session (cs : list command) : M unit :=
  match cs with
  | [] => ret tt
  | c :: cs' => run_command c ;; session cs'
  end.

Definition fresh : world := {| disk := None; stdout := [] |}.

(** ** Reading the store *)

(** What the three readers do with one line: strip, split, unpack. *)
Definition parse (line : string) : option (string * string * string) :=
  match split (strip line) with
  | [roll; name; marks] => Some (roll, name, marks)
  | _ => None
  end.

Definition has_roll (roll_no line : string) : bool :=
  match parse line with
  | Some (roll, _, _) => String.eqb roll roll_no
  | None => false
  end.

Definition parses (line : string) : bool :=
  match parse line with Some _ => true | None => false end.

(** A store of records: every line unpacks into three fields. *)
Definition well_formed (content : string) : bool :=
  forallb parses (readlines content).

(** The text is empty or its last character is a line feed. *)
Fixpoint newline_terminated (s : string) : bool :=
  match s with
  | EmptyString => true
  | String c s' =>
      match s' with
      | EmptyString => Ascii.eqb c LF
      | String _ _ => newline_terminated s'
      end
  end.

(** The stores the program itself writes, as long as the fields typed in
    hold no comma and no carriage return: absent, or records only with
    the last line ended. *)
Definition store_ok (d : option string) : bool :=
  match d with
  | None => true
  | Some content => well_formed content && newline_terminated content
  end.

Fixpoint contains (c : ascii) (s : string) : bool :=
  match s with
  | EmptyString => false
  | String c' s' => Ascii.eqb c' c || contains c s'
  end.

(** A line typed at a prompt in which nothing ends a line for a later
    read of the file: [input] returns no line feed, and the line holds
    no carriage return either. *)
Definition console_line (s : string) : bool :=
  negb (contains LF s) && negb (contains CR s).

(** A field that survives the round trip through the file: a console line
    without the delimiter. *)
Definition field (s : string) : bool :=
  console_line s && negb (contains comma s).

(** The line [add_student] writes. *)
Definition record_line (roll name marks : string) : string :=
  roll ++ "," ++ name ++ "," ++ marks ++ String LF "".

(** What the loop of [view_students] prints, and whether it reaches the
    end of the file. *)
Fixpoint listing (lines : list string) : list string * bool :=
  match lines with
  | [] => ([], true)
  | line :: rest =>
      match parse line with
      | None => ([], false)
      | Some (roll, name, marks) =>
          let (rows, done) := listing rest in
          (row roll name marks :: rows, done)
      end
  end.

(** What the loop of [search_student] comes to. *)
Inductive hit : Type :=
| Hit (roll name marks : string)
| Miss
| Malformed.

Fixpoint scan (roll_no : string) (lines : list string) : hit :=
  match lines with
  | [] => Miss
  | line :: rest =>
      match parse line with
      | None => Malformed
      | Some (roll, name, marks) =>
          if String.eqb roll roll_no then Hit roll name marks
          else scan roll_no rest
      end
  end.

(** What the loop of [delete_student] writes back, and the final value of
    [found], or [None] when a line stops it. *)
Fixpoint sweep (roll_no : string) (lines : list string) (found : bool)
  : list string * option bool :=
  match lines with
  | [] => ([], Some found)
  | line :: rest =>
      match parse line with
      | None => ([], None)
      | Some (roll, _, _) =>
          if negb (String.eqb roll roll_no) then
            let (kept, f) := sweep roll_no rest found in (line :: kept, f)
          else sweep roll_no rest true
      end
  end.

Definition keep (roll_no line : string) : bool := negb (has_roll roll_no line).

(** The line is a record with another roll than the one asked for. *)
Definition differs (roll_no line : string) : bool :=
  match parse line with
  | Some (roll, _, _) => negb (String.eqb roll roll_no)
  | None => false
  end.

(** The number of commas decides the number of fields. *)
Fixpoint commas (s : string) : nat :=
  match s with
  | EmptyString => 0
  | String c s' => (if Ascii.eqb c comma then 1 else 0) + commas s'
  end.

(** A line ended by its line feed, and a last line without one. *)
Definition complete (l : string) : Prop :=
  exists b, l = b ++ String LF ""
            /\ contains LF b = false /\ contains CR b = false.

Definition open_ended (l : string) : Prop :=
  l <> "" /\ contains LF l = false /\ contains CR l = false.

(** The shape of what [readlines] returns: complete lines, the last one
    possibly open-ended, and no carriage return left in them. *)
Inductive lines_ok : list string -> Prop :=
| lines_nil : lines_ok []
| lines_last l : open_ended l -> lines_ok [l]
| lines_cons l ls : complete l -> lines_ok ls -> lines_ok (l :: ls).

(** The two lines [view_students] prints before the rows. *)
Definition header : list string :=
  [String LF "Roll | Name | Marks"; "-------------------"].

(** ** The menu loop *)

(** How the program ends: by the choice "5", by an exception that leaves
    an operation, or because [input] finds the input at its end
    ([EOFError]). *)
Inductive ending : Type :=
| Exited
| Uncaught (e : exn)
| EndOfInput.

(** The six lines printed at the start of every round. *)
Definition banner : list string :=
  [String LF "--- Student Management System ---";
   "1. Add Student"; "2. View Students"; "3. Search Student";
   "4. Delete Student"; "5. Exit"].

Definition show_menu : M unit :=
  print (String LF "--- Student Management System ---") ;;
  print "1. Add Student" ;;
  print "2. View Students" ;;
  print "3. Search Student" ;;
  print "4. Delete Student" ;;
  print "5. Exit".

(** [while True: ...] on the lines the console supplies, each as [input]
    returns it. [add_student] opens the file before it asks for the
    fields, so the file is there even when the input ends too early;
    [search_student] and [delete_student] ask first. *)
Fixpoint menu (inputs : list string) (w : world) : ending * world :=
  let w1 := snd (show_menu w) in
  match inputs with
  | [] => (EndOfInput, w1)                    (* choice = input(..) *)
  | choice :: rest =>
      if String.eqb choice "1" then
        match rest with
        | roll :: name :: marks :: rest' =>
            match add_student roll name marks w1 with
            | (Return _, w2) => menu rest' w2
            | (Raise e, w2) => (Uncaught e, w2)
            end
        | _ => (EndOfInput, snd (open_a w1))
        end
      else if String.eqb choice "2" then
        match view_students w1 with
        | (Return _, w2) => menu rest w2
        | (Raise e, w2) => (Uncaught e, w2)
        end
      else if String.eqb choice "3" then
        match rest with
        | roll_no :: rest' =>
            match search_student roll_no w1 with
            | (Return _, w2) => menu rest' w2
            | (Raise e, w2) => (Uncaught e, w2)
            end
        | [] => (EndOfInput, w1)
        end
      else if String.eqb choice "4" then
        match rest with
        | roll_no :: rest' =>
            match delete_student roll_no w1 with
            | (Return _, w2) => menu rest' w2
            | (Raise e, w2) => (Uncaught e, w2)
            end
        | [] => (EndOfInput, w1)
        end
      else if String.eqb choice "5" then (Exited, w1)   (* break *)
      else menu rest (snd (print "Invalid choice!" w1))
  end.

(** What is typed to run a command: the choice, then the fields. *)
Definition keys (c : command) : list string :=
  match c with
  | Add roll name marks => ["1"; roll; name; marks]
  | View => ["2"]
  | Search roll_no => ["3"; roll_no]
  | Delete roll_no => ["4"; roll_no]
  end.

Definition typed (cs : list command) : list string := flat_map keys cs.

(** One of the five choices of the menu. *)
Definition is_choice (s : string) : bool :=
  String.eqb s "1" || String.eqb s "2" || String.eqb s "3"
  || String.eqb s "4" || String.eqb s "5".

(** A command whose fields, if it adds, are fields. *)
Definition clean (c : command) : bool :=
  match c with
  | Add roll name marks => field roll && field name && field marks
  | _ => true
  end.

(** The row [view_students] prints for a line that unpacks. *)
Definition row_of (line : string) : string :=
  match parse line with
  | Some (roll, name, marks) => row roll name marks
  | None => ""
  end.

(** ** Examples *)

Example session_duplicates :
  session [Add "1" "A" "10"; Add "1" "B" "20"; View; Search "1";
           Delete "1"; View] fresh
  = (Return tt,
     {| disk := Some "";
        stdout := ["Student added successfully!";
                   "Student added successfully!";
                   String LF "Roll | Name | Marks"; "-------------------";
                   "1 | A | 10"; "1 | B | 20";
                   "Found: 1 | A | 10";
                   "Student deleted successfully.";
                   String LF "Roll | Name | Marks"; "-------------------"] |}).
Proof. reflexivity. Qed.

Example session_comma :
  session [Add "2" "C" "20"; Add "1" "A,B" "10"; Add "3" "D" "30";
           Delete "7"] fresh
  = (Raise ValueError,
     {| disk := Some (record_line "2" "C" "20");
        stdout := ["Student added successfully!";
                   "Student added successfully!";
                   "Student added successfully!"] |}).
Proof. reflexivity. Qed.

Example strip_both_ends : strip (String "009" " 1,A,10 " ++ String LF "") = "1,A,10".
Proof. reflexivity. Qed.

Example split_empty_fields : split ",," = [""; ""; ""].
Proof. reflexivity. Qed.

Example readlines_last_open :
  readlines ("a" ++ String LF "" ++ String LF "b") = ["a" ++ String LF ""; String LF ""; "b"].
Proof. reflexivity. Qed.

(** ** Strings: appending, stripping, splitting *)

Lemma append_nil_r (s : string) : s ++ "" = s.
Proof. induction s as [|c s IH]; simpl; [reflexivity | now rewrite IH]. Qed.

Lemma append_assoc (a b c : string) : (a ++ b) ++ c = a ++ (b ++ c).
Proof. induction a as [|x a IH]; simpl; [reflexivity | now rewrite IH]. Qed.

Lemma append_eq_nil (a b : string) : a ++ b = "" -> a = "" /\ b = "".
Proof. destruct a; simpl; [auto | discriminate]. Qed.

Lemma contains_append (c : ascii) (a b : string) :
  contains c (a ++ b) = contains c a || contains c b.
Proof.
  induction a as [|x a IH]; simpl; [reflexivity|].
  now rewrite IH, orb_assoc.
Qed.

Lemma isspace_comma : isspace comma = false.
Proof. reflexivity. Qed.

Lemma isspace_LF : isspace LF = true.
Proof. reflexivity. Qed.

Lemma length_lstrip (s : string) :
  String.length (lstrip s) <= String.length s.
Proof.
  induction s as [|c s IH]; simpl; [lia|].
  destruct (isspace c); simpl; lia.
Qed.

(** A string that [lstrip] leaves alone does not start with white space,
    so nothing is stripped when more text follows it either. *)
Lemma lstrip_fixed_app (r t : string) :
  lstrip r = r -> lstrip t = t -> lstrip (r ++ t) = r ++ t.
Proof.
  destruct r as [|c r]; simpl; [auto|].
  intros H _. destruct (isspace c) eqn:E; [|reflexivity].
  pose proof (length_lstrip r) as L. rewrite H in L. simpl in L. lia.
Qed.

Lemma rstrip_app_blank (s t : string) :
  rstrip t = "" -> rstrip (s ++ t) = rstrip s.
Proof.
  intros H. induction s as [|c s IH]; simpl; [assumption|].
  now rewrite IH.
Qed.

Lemma rstrip_app_solid (s t : string) :
  rstrip t <> "" -> rstrip (s ++ t) = s ++ rstrip t.
Proof.
  intros H. induction s as [|c s IH]; simpl; [reflexivity|].
  rewrite IH. destruct (s ++ rstrip t) eqn:E; [|reflexivity].
  apply append_eq_nil in E. tauto.
Qed.

Lemma rstrip_comma (s : string) : rstrip (String comma s) = String comma (rstrip s).
Proof. simpl. destruct (rstrip s); reflexivity. Qed.

Lemma split_plain (s : string) : contains comma s = false -> split s = [s].
Proof.
  induction s as [|c s IH]; simpl; [reflexivity|].
  intros H. apply orb_false_iff in H as [Hc Hs].
  rewrite Hc, (IH Hs). reflexivity.
Qed.

Lemma split_app_comma (a b : string) :
  contains comma a = false -> split (a ++ String comma b) = a :: split b.
Proof.
  induction a as [|c a IH]; simpl; [reflexivity|].
  intros H. apply orb_false_iff in H as [Hc Ha].
  rewrite Hc, (IH Ha). reflexivity.
Qed.

Lemma split_fields_plain (s : string) :
  Forall (fun f => contains comma f = false) (split s).
Proof.
  induction s as [|c s IH]; simpl; [repeat constructor|].
  destruct (Ascii.eqb c comma) eqn:E; [constructor; auto|].
  destruct (split s) as [|f fs]; [repeat constructor; simpl; now rewrite E|].
  inversion IH; subst. constructor; [|assumption]. simpl. now rewrite E.
Qed.

(** The fields a line unpacks into hold no comma. *)
Lemma parsed_fields_plain (line roll name marks : string) :
  parse line = Some (roll, name, marks) ->
  contains comma roll = false /\ contains comma name = false
  /\ contains comma marks = false.
Proof.
  unfold parse. intros H.
  pose proof (split_fields_plain (strip line)) as P.
  destruct (split (strip line)) as [|a [|b [|c [|x l]]]]; try discriminate.
  injection H as -> -> ->.
  inversion P as [|? ? Pa P1]; subst. inversion P1 as [|? ? Pb P2]; subst.
  inversion P2; subst. auto.
Qed.

Lemma length_split (s : string) : List.length (split s) = S (commas s).
Proof.
  induction s as [|c s IH]; simpl; [reflexivity|].
  destruct (Ascii.eqb c comma); simpl; [now rewrite IH|].
  destruct (split s); simpl in *; [discriminate | assumption].
Qed.

Lemma commas_append (a b : string) : commas (a ++ b) = commas a + commas b.
Proof. induction a as [|c a IH]; simpl; [reflexivity | rewrite IH; lia]. Qed.

Lemma commas_contains (s : string) : contains comma s = true -> 1 <= commas s.
Proof.
  induction s as [|c s IH]; simpl; [discriminate|].
  destruct (Ascii.eqb c comma); simpl; [lia | auto].
Qed.

Lemma isspace_not_comma (c : ascii) : isspace c = true -> Ascii.eqb c comma = false.
Proof.
  intros H. destruct (Ascii.eqb_spec c comma) as [->|]; [discriminate | reflexivity].
Qed.

Lemma commas_lstrip (s : string) : commas (lstrip s) = commas s.
Proof.
  induction s as [|c s IH]; simpl; [reflexivity|].
  destruct (isspace c) eqn:E; [|reflexivity].
  now rewrite (isspace_not_comma c E).
Qed.

Lemma commas_rstrip (s : string) : commas (rstrip s) = commas s.
Proof.
  induction s as [|c s IH]; simpl; [reflexivity|].
  destruct (rstrip s) eqn:R.
  - simpl in IH. rewrite <- IH.
    destruct (isspace c) eqn:E; simpl; [now rewrite (isspace_not_comma c E)|lia].
  - simpl in *. now rewrite IH.
Qed.

Lemma commas_strip (s : string) : commas (strip s) = commas s.
Proof. unfold strip. now rewrite commas_lstrip, commas_rstrip. Qed.

(** A line parses exactly when it holds two commas. *)
Lemma parses_commas (line : string) : parses line = Nat.eqb (commas line) 2.
Proof.
  unfold parses, parse.
  pose proof (length_split (strip line)) as L. rewrite commas_strip in L.
  destruct (split (strip line)) as [|a [|b [|c [|d l]]]]; simpl in L;
    try discriminate;
    injection L as L; rewrite <- L; reflexivity.
Qed.

(** The line written by [add_student] reads back as the three fields when
    they are fields, the roll has no leading and the marks no trailing
    white space. *)
Lemma parse_record_line (roll name marks : string) :
  contains comma roll = false -> contains comma name = false ->
  contains comma marks = false ->
  lstrip roll = roll -> rstrip marks = marks ->
  parse (record_line roll name marks) = Some (roll, name, marks).
Proof.
  intros Hr Hn Hm Hl Ht. unfold parse, strip, record_line.
  assert (R : rstrip (roll ++ "," ++ name ++ "," ++ marks ++ String LF "")
              = roll ++ "," ++ name ++ "," ++ marks).
  { replace (roll ++ "," ++ name ++ "," ++ marks ++ String LF "")
      with ((roll ++ "," ++ name ++ "," ++ marks) ++ String LF "")
      by (now rewrite !append_assoc).
    rewrite rstrip_app_blank by reflexivity.
    replace (roll ++ "," ++ name ++ "," ++ marks)
      with ((roll ++ "," ++ name) ++ String comma marks)
      by (now rewrite !append_assoc).
    rewrite rstrip_app_solid; rewrite rstrip_comma, Ht;
      [reflexivity | discriminate]. }
  rewrite R.
  rewrite lstrip_fixed_app by (assumption || reflexivity).
  change ("," ++ name ++ "," ++ marks) with (String comma (name ++ String comma marks)).
  rewrite (split_app_comma roll) by assumption.
  rewrite (split_app_comma name) by assumption.
  rewrite (split_plain marks) by assumption.
  reflexivity.
Qed.

(** ** Lines *)

Lemma contains_translate (f : bool) (s : string) :
  contains CR (translate f s) = false.
Proof.
  revert f. induction s as [|c s IH]; intros f; simpl; [reflexivity|].
  destruct (Ascii.eqb c CR) eqn:E; [simpl; apply IH|].
  destruct (Ascii.eqb c LF && f); [apply IH|].
  simpl. now rewrite E, IH.
Qed.

(** A text without carriage return is read as it is. *)
Lemma translate_plain (s : string) :
  contains CR s = false -> universal_newlines s = s.
Proof.
  unfold universal_newlines.
  induction s as [|c s IH]; simpl; [reflexivity|].
  intros H. apply orb_false_iff in H as [Hc Hs].
  now rewrite Hc, andb_false_r, (IH Hs).
Qed.

Lemma translate_nil (s : string) : universal_newlines s = "" -> s = "".
Proof.
  unfold universal_newlines. destruct s as [|c s]; simpl; [reflexivity|].
  destruct (Ascii.eqb c CR); [discriminate|].
  rewrite andb_false_r. discriminate.
Qed.

(** After a text whose last character is a line feed, the text that
    follows is read on its own. *)
Lemma translate_app (f : bool) (a b : string) :
  a <> "" -> newline_terminated a = true ->
  translate f (a ++ b) = translate f a ++ translate false b.
Proof.
  revert f. induction a as [|c a IH]; intros f Hne H; [congruence|].
  destruct a as [|c' a].
  - simpl in H. apply Ascii.eqb_eq in H. subst c. simpl.
    destruct f; reflexivity.
  - assert (N : String c' a <> "") by discriminate.
    change (String c (String c' a) ++ b) with (String c (String c' a ++ b)).
    cbn [translate]. cbn [newline_terminated] in H.
    destruct (Ascii.eqb c CR); [now rewrite (IH true N H)|].
    destruct (Ascii.eqb c LF && f); [now rewrite (IH false N H)|].
    now rewrite (IH false N H).
Qed.

Lemma universal_newlines_app (a b : string) :
  newline_terminated a = true ->
  universal_newlines (a ++ b) = universal_newlines a ++ universal_newlines b.
Proof.
  intros H. destruct a as [|c a]; [reflexivity|].
  apply translate_app; [discriminate | assumption].
Qed.

Lemma newline_terminated_cons (c : ascii) (a : string) :
  a <> "" -> newline_terminated (String c a) = newline_terminated a.
Proof. destruct a; [congruence | reflexivity]. Qed.

Lemma newline_terminated_translate (f : bool) (a : string) :
  newline_terminated a = true -> newline_terminated (translate f a) = true.
Proof.
  revert f. induction a as [|c a IH]; intros f H; [reflexivity|].
  destruct (string_dec a "") as [->|N].
  - simpl in H. apply Ascii.eqb_eq in H. subst c. simpl.
    destruct f; reflexivity.
  - rewrite (newline_terminated_cons _ _ N) in H. cbn [translate].
    destruct (Ascii.eqb c CR).
    + specialize (IH true H).
      destruct (translate true a) eqn:E; [reflexivity|].
      now rewrite newline_terminated_cons by discriminate.
    + destruct (Ascii.eqb c LF && f); [now apply IH|].
      specialize (IH false H).
      destruct (translate false a) eqn:E.
      * apply translate_nil in E. contradiction.
      * now rewrite newline_terminated_cons by discriminate.
Qed.

Lemma splitlines_nil (s : string) : splitlines s = [] -> s = "".
Proof.
  destruct s as [|c s]; simpl; [reflexivity|].
  destruct (Ascii.eqb c LF); [discriminate|].
  destruct (splitlines s); discriminate.
Qed.

Lemma splitlines_ok (s : string) :
  contains CR s = false -> lines_ok (splitlines s).
Proof.
  induction s as [|c s IH]; simpl; [constructor|].
  intros H. apply orb_false_iff in H as [Hr Hs]. specialize (IH Hs).
  destruct (Ascii.eqb_spec c LF) as [->|Hc].
  - apply lines_cons; [|assumption]. exists "". repeat split; reflexivity.
  - assert (Hc' : Ascii.eqb c LF = false) by (now apply Ascii.eqb_neq).
    destruct (splitlines s) as [|l ls] eqn:R.
    + apply lines_last. split; [discriminate|]. simpl. now rewrite Hc', Hr.
    + inversion IH as [|l' (Hne & Hl & Hl')|l' ls' (b & -> & Hb & Hb') Hls];
        subst.
      * apply lines_last. split; [discriminate|]. simpl.
        now rewrite Hc', Hr, Hl, Hl'.
      * apply lines_cons; [|assumption].
        exists (String c b). split; [reflexivity|]. simpl.
        now rewrite Hc', Hr, Hb, Hb'.
Qed.

Lemma splitlines_open_ended (l : string) :
  l <> "" -> contains LF l = false -> splitlines l = [l].
Proof.
  intros Hne Hl. induction l as [|c l IH]; [congruence|].
  simpl in *. apply orb_false_iff in Hl as [Hc Hl]. rewrite Hc.
  destruct l as [|c' l]; [reflexivity|].
  rewrite IH; [reflexivity | discriminate | assumption].
Qed.

Lemma splitlines_complete_app (b rest : string) :
  contains LF b = false ->
  splitlines (b ++ String LF rest) = (b ++ String LF "") :: splitlines rest.
Proof.
  induction b as [|c b IH]; simpl; [reflexivity|].
  intros H. apply orb_false_iff in H as [Hc Hb]. rewrite Hc, (IH Hb).
  reflexivity.
Qed.

Lemma join_splitlines (s : string) : join (splitlines s) = s.
Proof.
  induction s as [|c s IH]; simpl; [reflexivity|].
  destruct (Ascii.eqb c LF); simpl; [now rewrite IH|].
  destruct (splitlines s) as [|l ls]; simpl in *; now rewrite <- IH.
Qed.

Lemma splitlines_app (a b : string) :
  newline_terminated a = true ->
  splitlines (a ++ b) = (splitlines a ++ splitlines b)%list.
Proof.
  induction a as [|c a IH]; [reflexivity|].
  intros H. destruct a as [|c' a].
  - simpl in H. simpl. now rewrite H.
  - specialize (IH H). change (String c (String c' a) ++ b)
      with (String c (String c' a ++ b)).
    cbn [splitlines]. cbn [splitlines] in IH. rewrite IH.
    destruct (Ascii.eqb c LF); [reflexivity|].
    destruct (Ascii.eqb c' LF); [reflexivity|].
    destruct (splitlines a); reflexivity.
Qed.

Lemma lines_plain (ls : list string) :
  lines_ok ls -> contains CR (join ls) = false.
Proof.
  induction 1 as [|l (_ & _ & Hl)|l ls (b & -> & _ & Hb) _ IH]; simpl.
  - reflexivity.
  - now rewrite append_nil_r.
  - now rewrite !contains_append, Hb, IH.
Qed.

Lemma readlines_nil (s : string) : readlines s = [] -> s = "".
Proof. intros H. now apply translate_nil, splitlines_nil. Qed.

Lemma readlines_ok (s : string) : lines_ok (readlines s).
Proof. apply splitlines_ok, contains_translate. Qed.

(** Writing lines and reading the file again gives the lines back. *)
Lemma readlines_join (ls : list string) : lines_ok ls -> readlines (join ls) = ls.
Proof.
  intros H. unfold readlines. rewrite (translate_plain _ (lines_plain _ H)).
  induction H as [|l (Hne & Hl & _)|l ls (b & -> & Hb & _) Hls IH]; simpl.
  - reflexivity.
  - rewrite append_nil_r. now apply splitlines_open_ended.
  - rewrite append_assoc. simpl.
    rewrite splitlines_complete_app by assumption. now rewrite IH.
Qed.

(** The lines read, written one after the other, are the file with its
    line ends turned into line feeds. *)
Lemma join_readlines (s : string) : join (readlines s) = universal_newlines s.
Proof. apply join_splitlines. Qed.

Lemma join_app (a b : list string) : join (a ++ b) = join a ++ join b.
Proof.
  induction a as [|l a IH]; simpl; [reflexivity|].
  now rewrite IH, append_assoc.
Qed.

(** After a text whose last line is ended, appended text starts a line of
    its own. *)
Lemma readlines_app (a b : string) :
  newline_terminated a = true ->
  readlines (a ++ b) = (readlines a ++ readlines b)%list.
Proof.
  intros H. unfold readlines. rewrite (universal_newlines_app _ _ H).
  apply splitlines_app. now apply newline_terminated_translate.
Qed.

Lemma newline_terminated_app (a b : string) :
  b <> "" -> newline_terminated (a ++ b) = newline_terminated b.
Proof.
  intros Hb. induction a as [|c a IH]; [reflexivity|].
  change (String c a ++ b) with (String c (a ++ b)). cbn [newline_terminated].
  destruct (a ++ b) eqn:E; [|assumption].
  apply append_eq_nil in E. tauto.
Qed.

Lemma readlines_record_line (roll name marks : string) :
  contains LF roll = false -> contains LF name = false ->
  contains LF marks = false ->
  contains CR roll = false -> contains CR name = false ->
  contains CR marks = false ->
  readlines (record_line roll name marks) = [record_line roll name marks].
Proof.
  intros Hr Hn Hm Cr Cn Cm. unfold readlines.
  rewrite translate_plain
    by (unfold record_line; rewrite !contains_append, Cr, Cn, Cm; reflexivity).
  unfold record_line.
  replace (roll ++ "," ++ name ++ "," ++ marks ++ String LF "")
    with ((roll ++ "," ++ name ++ "," ++ marks) ++ String LF "")
    by (now rewrite !append_assoc).
  rewrite splitlines_complete_app; [reflexivity|].
  rewrite !contains_append, Hr, Hn, Hm. reflexivity.
Qed.

(** ** The loops of the three readers *)

Lemma unpack3_parse (line : string) (w : world) :
  unpack3 (split (strip line)) w
  = match parse line with
    | Some t => (Return t, w)
    | None => (Raise ValueError, w)
    end.
Proof.
  unfold parse.
  destruct (split (strip line)) as [|a [|b [|c [|d l]]]]; reflexivity.
Qed.

Lemma view_loop (lines : list string) (d : option string) (o : list string) :
  for_in lines tt (fun line _ =>
    '(roll, name, marks) <- unpack3 (split (strip line)) ;;
    print (row roll name marks) ;;
    ret (Next tt)) {| disk := d; stdout := o |}
  = (if snd (listing lines) then Return tt else Raise ValueError,
     {| disk := d; stdout := (o ++ fst (listing lines))%list |}).
Proof.
  revert o. induction lines as [|line rest IH]; intros o; simpl.
  - now rewrite app_nil_r.
  - unfold bind at 1. unfold bind at 1. rewrite unpack3_parse.
    destruct (parse line) as [[[roll name] marks]|]; simpl.
    + unfold bind at 1. simpl. rewrite IH.
      destruct (listing rest) as [rows done]; simpl.
      now rewrite <- app_assoc.
    + now rewrite app_nil_r.
Qed.

Lemma search_loop (roll_no : string) (lines : list string) (w : world) :
  for_in lines false (fun line found =>
    '(roll, name, marks) <- unpack3 (split (strip line)) ;;
    if String.eqb roll roll_no then
      print ("Found: " ++ row roll name marks) ;;
      ret (Break true)
    else ret (Next found)) w
  = match scan roll_no lines with
    | Hit roll name marks =>
        (Return true,
         {| disk := disk w;
            stdout := (stdout w ++ [("Found: " ++ row roll name marks)%string])%list |})
    | Miss => (Return false, w)
    | Malformed => (Raise ValueError, w)
    end.
Proof.
  induction lines as [|line rest IH]; simpl; [reflexivity|].
  unfold bind at 1. unfold bind at 1. rewrite unpack3_parse.
  destruct (parse line) as [[[roll name] marks]|]; simpl; [|reflexivity].
  destruct (String.eqb roll roll_no); simpl; [reflexivity|].
  exact IH.
Qed.

Lemma delete_loop (roll_no : string) (lines : list string) (found : bool)
      (content : string) (o : list string) :
  for_in lines found (fun line found =>
    '(roll, name, marks) <- unpack3 (split (strip line)) ;;
    if negb (String.eqb roll roll_no) then
      write line ;;
      ret (Next found)
    else ret (Next true)) {| disk := Some content; stdout := o |}
  = (match snd (sweep roll_no lines found) with
     | Some f => Return f
     | None => Raise ValueError
     end,
     {| disk := Some (content ++ join (fst (sweep roll_no lines found)));
        stdout := o |}).
Proof.
  revert found content.
  induction lines as [|line rest IH]; intros found content; simpl.
  - now rewrite append_nil_r.
  - unfold bind at 1. unfold bind at 1. rewrite unpack3_parse.
    destruct (parse line) as [[[roll name] marks]|]; simpl.
    + destruct (String.eqb roll roll_no); simpl.
      * apply IH.
      * unfold bind at 1. simpl. rewrite IH.
        destruct (sweep roll_no rest found) as [kept f]; simpl.
        now rewrite append_assoc.
    + now rewrite append_nil_r.
Qed.

(** ** The operations in closed form *)

Lemma add_student_run (roll name marks : string) (d : option string)
      (o : list string) :
  add_student roll name marks {| disk := d; stdout := o |}
  = (Return tt,
     {| disk := Some (match d with Some content => content | None => "" end
                      ++ record_line roll name marks);
        stdout := (o ++ ["Student added successfully!"])%list |}).
Proof. destruct d; reflexivity. Qed.

Lemma view_students_run (d : option string) (o : list string) :
  view_students {| disk := d; stdout := o |}
  = match d with
    | None =>
        (Return tt,
         {| disk := None; stdout := (o ++ ["No records found."])%list |})
    | Some content =>
        (if snd (listing (readlines content)) then Return tt
         else Raise ValueError,
         {| disk := Some content;
            stdout := (o ++ header ++ fst (listing (readlines content)))%list |})
    end.
Proof.
  unfold view_students, try_except_FileNotFoundError.
  destruct d as [content|]; [|reflexivity].
  unfold bind at 1. unfold open_r at 1. cbn [disk].
  unfold bind at 1. unfold print at 1. cbn [disk stdout].
  unfold bind at 1. unfold print at 1. cbn [disk stdout].
  rewrite view_loop.
  rewrite <- !app_assoc. simpl.
  destruct (snd (listing (readlines content))); reflexivity.
Qed.

Lemma search_student_run (roll_no : string) (d : option string)
      (o : list string) :
  search_student roll_no {| disk := d; stdout := o |}
  = match d with
    | None => (Raise FileNotFoundError, {| disk := None; stdout := o |})
    | Some content =>
        match scan roll_no (readlines content) with
        | Hit roll name marks =>
            (Return tt,
             {| disk := Some content;
                stdout := (o ++ [("Found: " ++ row roll name marks)%string])%list |})
        | Miss =>
            (Return tt,
             {| disk := Some content;
                stdout := (o ++ ["Student not found."])%list |})
        | Malformed =>
            (Raise ValueError, {| disk := Some content; stdout := o |})
        end
    end.
Proof.
  unfold search_student. destruct d as [content|]; [|reflexivity].
  unfold bind at 1. unfold open_r at 1. cbn [disk].
  unfold bind at 1. rewrite search_loop. cbn [disk stdout].
  destruct (scan roll_no (readlines content)); reflexivity.
Qed.

Lemma delete_student_run (roll_no : string) (d : option string)
      (o : list string) :
  delete_student roll_no {| disk := d; stdout := o |}
  = match d with
    | None => (Raise FileNotFoundError, {| disk := None; stdout := o |})
    | Some content =>
        let (kept, found) := sweep roll_no (readlines content) false in
        match found with
        | Some true =>
            (Return tt,
             {| disk := Some (join kept);
                stdout := (o ++ ["Student deleted successfully."])%list |})
        | Some false =>
            (Return tt,
             {| disk := Some (join kept);
                stdout := (o ++ ["Student not found."])%list |})
        | None =>
            (Raise ValueError, {| disk := Some (join kept); stdout := o |})
        end
    end.
Proof.
  unfold delete_student. destruct d as [content|]; [|reflexivity].
  unfold bind at 1. unfold open_r at 1. cbn [disk].
  unfold bind at 1. unfold open_w at 1. cbn [stdout].
  unfold bind at 1. rewrite delete_loop.
  destruct (sweep roll_no (readlines content) false) as [kept [[|]|]];
    reflexivity.
Qed.

(** ** The loops on a store of records *)

Lemma keep_parsed (roll_no line roll name marks : string) :
  parse line = Some (roll, name, marks) ->
  keep roll_no line = negb (String.eqb roll roll_no).
Proof. intros H. unfold keep, has_roll. now rewrite H. Qed.

Lemma sweep_records (roll_no : string) (lines : list string) (found : bool) :
  forallb parses lines = true ->
  sweep roll_no lines found
  = (filter (keep roll_no) lines,
     Some (found || existsb (has_roll roll_no) lines)).
Proof.
  revert found. induction lines as [|line rest IH]; intros found H; simpl.
  - now rewrite orb_false_r.
  - simpl in H. apply andb_true_iff in H as [Hl Hrest].
    unfold keep at 1. unfold has_roll at 1 2. unfold parses in Hl.
    destruct (parse line) as [[[roll name] marks]|]; [|discriminate].
    destruct (String.eqb roll roll_no); simpl; rewrite IH by assumption.
    + now rewrite orb_true_r.
    + reflexivity.
Qed.

(** Whatever the store holds, the lines written back do not have the
    roll asked for, and they are lines again. *)
Lemma sweep_keeps (roll_no : string) (lines : list string) (found : bool) :
  forallb (keep roll_no) (fst (sweep roll_no lines found)) = true.
Proof.
  revert found. induction lines as [|line rest IH]; intros found; simpl.
  - reflexivity.
  - destruct (parse line) as [[[roll name] marks]|] eqn:P; [|reflexivity].
    destruct (String.eqb roll roll_no) eqn:E; simpl; [apply IH|].
    specialize (IH found).
    destruct (sweep roll_no rest found) as [kept f]; simpl in *.
    rewrite IH, (keep_parsed _ _ _ _ _ P), E. reflexivity.
Qed.

Lemma sweep_lines_ok (roll_no : string) (lines : list string) (found : bool) :
  lines_ok lines -> lines_ok (fst (sweep roll_no lines found)).
Proof.
  intros H. revert found.
  induction H as [|l Hl|l ls Hl Hls IH]; intros found; simpl.
  - constructor.
  - destruct (parse l) as [[[roll name] marks]|]; [|constructor].
    destruct (negb (String.eqb roll roll_no)); simpl; now constructor.
  - destruct (parse l) as [[[roll name] marks]|]; [|constructor].
    destruct (negb (String.eqb roll roll_no)); [|apply IH].
    specialize (IH found).
    destruct (sweep roll_no ls found) as [kept f]; simpl in *.
    now apply lines_cons.
Qed.

Lemma filter_lines_ok (f : string -> bool) (lines : list string) :
  lines_ok lines -> lines_ok (filter f lines).
Proof.
  induction 1 as [|l Hl|l ls Hl Hls IH]; simpl.
  - constructor.
  - destruct (f l); now constructor.
  - destruct (f l); [now apply lines_cons | assumption].
Qed.

Lemma listing_records (lines : list string) :
  forallb parses lines = true -> snd (listing lines) = true.
Proof.
  induction lines as [|line rest IH]; simpl; [reflexivity|].
  intros H. apply andb_true_iff in H as [Hl Hrest]. unfold parses in Hl.
  destruct (parse line) as [[[roll name] marks]|]; [|discriminate].
  specialize (IH Hrest). destruct (listing rest); assumption.
Qed.

Lemma listing_app (a b : list string) :
  forallb parses a = true ->
  listing (a ++ b)
  = ((fst (listing a) ++ fst (listing b))%list, snd (listing b)).
Proof.
  induction a as [|line rest IH]; simpl.
  - intros _. now destruct (listing b).
  - intros H. apply andb_true_iff in H as [Hl Hrest]. unfold parses in Hl.
    destruct (parse line) as [[[roll name] marks]|]; [|discriminate].
    rewrite (IH Hrest). now destruct (listing rest).
Qed.

(** The search stops at the first line with the roll asked for; what
    follows that line is not looked at. *)
Lemma scan_first (roll_no : string) (before after : list string)
      (line name marks : string) :
  forallb (differs roll_no) before = true ->
  parse line = Some (roll_no, name, marks) ->
  scan roll_no (before ++ line :: after) = Hit roll_no name marks.
Proof.
  intros Hb Hl. induction before as [|l rest IH]; simpl.
  - now rewrite Hl, String.eqb_refl.
  - simpl in Hb. apply andb_true_iff in Hb as [Hd Hrest]. unfold differs in Hd.
    destruct (parse l) as [[[r n] m]|]; [|discriminate].
    apply negb_true_iff in Hd. rewrite Hd. now apply IH.
Qed.

Lemma scan_miss (roll_no : string) (lines : list string) :
  forallb (differs roll_no) lines = true ->
  scan roll_no lines = Miss.
Proof.
  induction lines as [|l rest IH]; simpl; [reflexivity|].
  intros Hb. apply andb_true_iff in Hb as [Hd Hrest]. unfold differs in Hd.
  destruct (parse l) as [[[r n] m]|]; [|discriminate].
  apply negb_true_iff in Hd. rewrite Hd. now apply IH.
Qed.

Lemma differs_parses (roll_no : string) (lines : list string) :
  forallb (differs roll_no) lines = true -> forallb parses lines = true.
Proof.
  induction lines as [|l rest IH]; simpl; [reflexivity|].
  intros H. apply andb_true_iff in H as [Hd Hrest].
  rewrite (IH Hrest), andb_true_r. unfold differs in Hd. unfold parses.
  now destruct (parse l).
Qed.

(** No line with the roll asked for is left by [delete_student], also
    when a malformed line stops it half way. *)
Lemma delete_leaves_no_match (roll_no content : string) (o : list string) :
  exists content',
    disk (snd (delete_student roll_no {| disk := Some content; stdout := o |}))
    = Some content'
    /\ forallb (keep roll_no) (readlines content') = true.
Proof.
  rewrite delete_student_run.
  pose proof (sweep_keeps roll_no (readlines content) false) as K.
  pose proof (sweep_lines_ok roll_no (readlines content) false
                (readlines_ok content)) as L.
  destruct (sweep roll_no (readlines content) false) as [kept found].
  simpl in K, L. exists (join kept).
  rewrite (readlines_join kept L).
  destruct found as [[|]|]; simpl; auto.
Qed.

Lemma forallb_filter {A} (f : A -> bool) (l : list A) :
  forallb f (filter f l) = true.
Proof.
  induction l as [|x l IH]; simpl; [reflexivity|].
  destruct (f x) eqn:E; simpl; [now rewrite E|assumption].
Qed.

Lemma bind_ret_world {A} (m : M A) (w : world) :
  snd ((m ;; ret tt) w) = snd (m w).
Proof. unfold bind, ret. destruct (m w) as [[a|e] w']; reflexivity. Qed.

(** [delete_student] on a store of records, in closed form. *)
Lemma delete_student_records (roll_no content : string) (o : list string) :
  well_formed content = true ->
  delete_student roll_no {| disk := Some content; stdout := o |}
  = (Return tt,
     {| disk := Some (join (filter (keep roll_no) (readlines content)));
        stdout := (o ++ [if existsb (has_roll roll_no) (readlines content)
                        then "Student deleted successfully."
                        else "Student not found."])%list |}).
Proof.
  intros H. rewrite delete_student_run.
  rewrite (sweep_records roll_no _ false H). simpl.
  destruct (existsb (has_roll roll_no) (readlines content)); reflexivity.
Qed.

Lemma console_line_no_LF (s : string) :
  console_line s = true -> contains LF s = false.
Proof.
  unfold console_line. intros H. apply andb_true_iff in H as [H _].
  now apply negb_true_iff.
Qed.

Lemma field_parts (s : string) :
  field s = true ->
  contains LF s = false /\ contains comma s = false /\ contains CR s = false.
Proof.
  unfold field, console_line. intros H. apply andb_true_iff in H as [Hc Hk].
  apply andb_true_iff in Hc as [Hl Hr].
  repeat split; now apply negb_true_iff.
Qed.

Lemma console_line_no_CR (s : string) :
  console_line s = true -> contains CR s = false.
Proof.
  unfold console_line. intros H. apply andb_true_iff in H as [_ H].
  now apply negb_true_iff.
Qed.

Lemma store_ok_parts (d : option string) :
  store_ok d = true ->
  well_formed (match d with Some content => content | None => "" end) = true
  /\ newline_terminated
       (match d with Some content => content | None => "" end) = true.
Proof.
  destruct d as [content|]; simpl; [|auto].
  intros H. now apply andb_true_iff in H.
Qed.

Lemma commas_record_line (roll name marks : string) :
  commas (record_line roll name marks)
  = commas roll + commas name + commas marks + 2.
Proof.
  unfold record_line. rewrite !commas_append. simpl. lia.
Qed.

(** A line written with a comma inside a field has three commas or more
    and does not unpack. *)
Lemma parse_line_with_comma (roll name marks : string) :
  contains comma roll || contains comma name || contains comma marks = true ->
  3 <= commas (record_line roll name marks)
  /\ parse (record_line roll name marks) = None.
Proof.
  intros H.
  assert (C : 3 <= commas (record_line roll name marks)).
  { rewrite commas_record_line.
    apply orb_true_iff in H as [H|H]; [apply orb_true_iff in H as [H|H]|];
      apply commas_contains in H; lia. }
  split; [exact C|].
  pose proof (parses_commas (record_line roll name marks)) as E.
  unfold parses in E.
  destruct (parse (record_line roll name marks)); [|reflexivity].
  symmetry in E. apply Nat.eqb_eq in E. lia.
Qed.

(** ** When the operations return, and the stores they leave *)

(** [delete_student] runs to its end exactly on the stores of records: a
    line that does not unpack stops it with [ValueError]. *)
Lemma sweep_completes (roll_no : string) (lines : list string) (found : bool) :
  snd (sweep roll_no lines found) <> None <-> forallb parses lines = true.
Proof.
  revert found. induction lines as [|line rest IH]; intros found; simpl.
  - split; [reflexivity | discriminate].
  - unfold parses at 1.
    destruct (parse line) as [[[roll name] marks]|]; simpl.
    + destruct (negb (String.eqb roll roll_no)); [|apply IH].
      specialize (IH found).
      destruct (sweep roll_no rest found) as [kept f]; exact IH.
    + split; [tauto | discriminate].
Qed.

Lemma delete_returns_iff (roll_no content : string) (o : list string) :
  fst (delete_student roll_no {| disk := Some content; stdout := o |})
  = Return tt
  <-> well_formed content = true.
Proof.
  rewrite delete_student_run. unfold well_formed.
  rewrite <- (sweep_completes roll_no (readlines content) false).
  destruct (sweep roll_no (readlines content) false) as [kept [[|]|]];
    simpl; split; congruence.
Qed.

Lemma view_returns_iff (content : string) (o : list string) :
  fst (view_students {| disk := Some content; stdout := o |}) = Return tt
  <-> well_formed content = true.
Proof.
  rewrite view_students_run. unfold well_formed.
  induction (readlines content) as [|line rest IH]; simpl.
  - tauto.
  - unfold parses at 1.
    destruct (parse line) as [[[roll name] marks]|]; simpl.
    + destruct (listing rest) as [rows done]; exact IH.
    + split; discriminate.
Qed.

Lemma lines_nonempty (ls : list string) :
  lines_ok ls -> Forall (fun l => l <> "") ls.
Proof.
  induction 1 as [|l [Hne _]|l ls [b [-> _]] _ IH]; constructor; auto.
  destruct b; discriminate.
Qed.

Lemma splitlines_nonempty (s : string) :
  Forall (fun l => l <> "") (splitlines s).
Proof.
  induction s as [|c s IH]; simpl; [constructor|].
  destruct (Ascii.eqb c LF); [constructor; [discriminate | assumption]|].
  destruct (splitlines s) as [|l ls]; [repeat constructor; discriminate|].
  inversion IH; subst. constructor; [discriminate | assumption].
Qed.

Lemma splitlines_terminated (s : string) :
  newline_terminated s = true ->
  Forall (fun l => newline_terminated l = true) (splitlines s).
Proof.
  induction s as [|c s IH]; [constructor|].
  intros H. destruct s as [|c' s].
  - simpl in H. simpl. rewrite H. repeat constructor.
    apply Ascii.eqb_eq in H. now subst.
  - specialize (IH H). pose proof (splitlines_nonempty (String c' s)) as N.
    cbn [splitlines] in *.
    destruct (Ascii.eqb c LF) eqn:E.
    + constructor; [|exact IH]. apply Ascii.eqb_eq in E. now subst.
    + destruct (Ascii.eqb c' LF).
      * inversion IH; subst. constructor; assumption.
      * destruct (splitlines s) as [|l ls].
        -- inversion IH; subst. constructor; assumption.
        -- inversion IH; subst. constructor; assumption.
Qed.

Lemma newline_terminated_lines (s : string) :
  newline_terminated s = true ->
  Forall (fun l => newline_terminated l = true) (readlines s).
Proof.
  intros H. apply splitlines_terminated.
  now apply newline_terminated_translate.
Qed.

Lemma newline_terminated_join (ls : list string) :
  Forall (fun l => newline_terminated l = true) ls ->
  newline_terminated (join ls) = true.
Proof.
  induction 1 as [|l ls Hl _ IH]; [reflexivity|]. simpl.
  destruct (join ls) eqn:E.
  - now rewrite append_nil_r.
  - rewrite newline_terminated_app by discriminate. exact IH.
Qed.

Lemma forallb_filter_mono {A} (f g : A -> bool) (l : list A) :
  forallb f l = true -> forallb f (filter g l) = true.
Proof.
  induction l as [|x l IH]; simpl; [reflexivity|].
  intros H. apply andb_true_iff in H as [Hx Hl].
  destruct (g x); simpl; [rewrite Hx|]; auto.
Qed.

(** The stores in [store_ok] are the ones the program stays in: adding
    fields and deleting lead from one to another. *)
Lemma add_keeps_store_ok (roll name marks : string) (d : option string)
      (o : list string) :
  store_ok d = true ->
  field roll = true -> field name = true -> field marks = true ->
  store_ok (disk (snd (add_student roll name marks
                         {| disk := d; stdout := o |}))) = true.
Proof.
  intros Hd Hr Hn Hm. rewrite add_student_run. cbn [snd disk store_ok].
  apply store_ok_parts in Hd as [Hw Hb].
  apply field_parts in Hr as (Hr1 & Hr2 & Hr3).
  apply field_parts in Hn as (Hn1 & Hn2 & Hn3).
  apply field_parts in Hm as (Hm1 & Hm2 & Hm3).
  apply andb_true_iff. split.
  - unfold well_formed in *.
    rewrite (readlines_app _ _ Hb), readlines_record_line by assumption.
    rewrite forallb_app, Hw. simpl.
    rewrite parses_commas, commas_record_line.
    assert (Z : forall s, contains comma s = false -> commas s = 0).
    { induction s as [|c s IH]; simpl; [reflexivity|].
      intros H. apply orb_false_iff in H as [Hc Hs]. rewrite Hc. auto. }
    rewrite (Z _ Hr2), (Z _ Hn2), (Z _ Hm2). reflexivity.
  - rewrite newline_terminated_app by (unfold record_line; destruct roll; discriminate).
    unfold record_line.
    replace (roll ++ "," ++ name ++ "," ++ marks ++ String LF "")
      with ((roll ++ "," ++ name ++ "," ++ marks) ++ String LF "")
      by (now rewrite !append_assoc).
    now rewrite newline_terminated_app by discriminate.
Qed.

Lemma delete_keeps_store_ok (roll_no : string) (d : option string)
      (o : list string) :
  store_ok d = true ->
  store_ok (disk (snd (delete_student roll_no
                         {| disk := d; stdout := o |}))) = true.
Proof.
  destruct d as [content|]; [|reflexivity].
  intros H. cbn [store_ok] in H. apply andb_true_iff in H as [Hw Hb].
  rewrite (delete_student_records roll_no content o Hw).
  cbn [snd disk store_ok]. apply andb_true_iff. split.
  - unfold well_formed in *.
    rewrite readlines_join by apply filter_lines_ok, readlines_ok.
    now apply forallb_filter_mono.
  - apply newline_terminated_join.
    apply newline_terminated_lines in Hb.
    induction Hb as [|l ls Hl _ IH]; simpl; [constructor|].
    destruct (keep roll_no l); [constructor|]; assumption.
Qed.

(** Deleting a roll that no record has rewrites the file as it was
    read: the same lines, their ends written as line feeds. *)
Lemma delete_absent_roll_unchanged (roll_no content : string)
      (o : list string) :
  forallb (differs roll_no) (readlines content) = true ->
  delete_student roll_no {| disk := Some content; stdout := o |}
  = (Return tt,
     {| disk := Some (universal_newlines content);
        stdout := (o ++ ["Student not found."])%list |}).
Proof.
  intros H.
  rewrite (delete_student_records roll_no content o (differs_parses _ _ H)).
  assert (F : filter (keep roll_no) (readlines content) = readlines content
              /\ existsb (has_roll roll_no) (readlines content) = false).
  { induction (readlines content) as [|l ls IH]; simpl; [auto|].
    simpl in H. apply andb_true_iff in H as [Hd Hls].
    destruct (IH Hls) as [IH1 IH2]. unfold keep at 1, has_roll.
    unfold differs in Hd.
    destruct (parse l) as [[[r n] m]|]; [|discriminate].
    apply negb_true_iff in Hd. rewrite Hd. simpl.
    unfold has_roll in IH2. now rewrite IH1, IH2. }
  destruct F as [F1 F2]. now rewrite F1, F2, join_readlines.
Qed.

(** ** The claims *)

(** C1. On a store of records, which by [delete_returns_iff] are the
    stores on which it runs to its end, [delete_student] writes back
    exactly the lines whose roll differs from the one asked for, so every
    record with that roll is removed, duplicates included, in the one
    pass over the lines; it prints "Student deleted successfully." when
    some stored record had the roll and "Student not found." otherwise.
    Whatever the store holds, no line with the roll is left in the file.
    In particular after adding ("1","A","10") and ("1","B","20") and
    deleting "1", neither record is in the store. *)
Theorem delete_removes_every_match :
  (forall (roll_no content : string) (o : list string),
      well_formed content = true ->
      let remaining := filter (keep roll_no) (readlines content) in
      delete_student roll_no {| disk := Some content; stdout := o |}
      = (Return tt,
         {| disk := Some (join remaining);
            stdout := (o ++ [if existsb (has_roll roll_no) (readlines content)
                            then "Student deleted successfully."
                            else "Student not found."])%list |})
      /\ readlines (join remaining) = remaining
      /\ forallb (keep roll_no) remaining = true)
  /\ (forall (roll_no content : string) (o : list string),
         exists content',
           disk (snd (delete_student roll_no
                        {| disk := Some content; stdout := o |}))
           = Some content'
           /\ forallb (keep roll_no) (readlines content') = true)
  /\ (forall (d : option string) (o : list string),
         exists content',
           disk (snd (session [Add "1" "A" "10"; Add "1" "B" "20"; Delete "1"]
                        {| disk := d; stdout := o |}))
           = Some content'
           /\ forallb (keep "1") (readlines content') = true
           /\ ~ In (record_line "1" "A" "10") (readlines content')
           /\ ~ In (record_line "1" "B" "20") (readlines content'))
  /\ session [Add "1" "A" "10"; Add "1" "B" "20"; Delete "1"] fresh
     = (Return tt,
        {| disk := Some "";
           stdout := ["Student added successfully!";
                      "Student added successfully!";
                      "Student deleted successfully."] |}).
Proof.
  split; [|split; [|split]].
  - intros roll_no content o H remaining. split; [|split].
    + now apply delete_student_records.
    + apply readlines_join, filter_lines_ok, readlines_ok.
    + apply forallb_filter.
  - apply delete_leaves_no_match.
  - intros d o. cbn [session run_command].
    unfold bind at 1. rewrite add_student_run.
    unfold bind at 1. rewrite add_student_run.
    rewrite bind_ret_world.
    match goal with
    | |- context [delete_student ?q {| disk := Some ?c; stdout := ?o' |}] =>
        destruct (delete_leaves_no_match q c o') as [content' [Hd Hk]]
    end.
    exists content'. split; [exact Hd|]. split; [exact Hk|].
    rewrite forallb_forall in Hk.
    split; intros Hin; apply Hk in Hin; discriminate.
  - reflexivity.
Qed.

Lemma delete_removes_every_match_witness :
  well_formed ("1,A,10" ++ String LF "2,B,20" ++ String LF "1,C,30" ++ String LF "") = true
  /\ delete_student "1"
       {| disk := Some ("1,A,10" ++ String LF "2,B,20" ++ String LF "1,C,30" ++ String LF "");
          stdout := [] |}
     = (Return tt,
        {| disk := Some ("2,B,20" ++ String LF "");
           stdout := ["Student deleted successfully."] |}).
Proof.
  split; [reflexivity|].
  exact (proj1 (proj1 delete_removes_every_match "1"
                  ("1,A,10" ++ String LF "2,B,20" ++ String LF "1,C,30" ++ String LF "")
                  [] eq_refl)).
Defined.



(** C5. With no file, [search_student] ends with the [FileNotFoundError]
    of the failed open: nothing is printed and no file is created; no
    handler stands in the way. [view_students] in the same situation
    returns normally after printing its message. *)
Theorem search_missing_file_raises :
  forall (roll_no : string) (o : list string),
    search_student roll_no {| disk := None; stdout := o |}
    = (Raise FileNotFoundError, {| disk := None; stdout := o |})
    /\ view_students {| disk := None; stdout := o |}
       = (Return tt,
          {| disk := None; stdout := (o ++ ["No records found."])%list |}).
Proof. intros roll_no o. split; reflexivity. Qed.

(** C6. With no file, [view_students] prints "No records found." and
    returns normally: the [FileNotFoundError] is caught, nothing else is
    printed and no file is created. *)
Theorem view_missing_file_reports :
  forall (o : list string),
    view_students {| disk := None; stdout := o |}
    = (Return tt,
       {| disk := None; stdout := (o ++ ["No records found."])%list |}).
Proof. intros o. reflexivity. Qed.

(** C9. [view_students] leaves the file as it found it, absent or with the
    same content, and a second call right after the first prints the same
    lines and ends the same way. *)
Theorem view_twice_same :
  forall (w : world),
    let first := view_students w in
    let second := view_students (snd first) in
    disk (snd first) = disk w
    /\ disk (snd second) = disk w
    /\ fst second = fst first
    /\ exists out,
        stdout (snd first) = (stdout w ++ out)%list
        /\ stdout (snd second) = (stdout (snd first) ++ out)%list.
Proof.
  intros [d o]. cbv zeta. rewrite view_students_run.
  destruct d as [content|]; cbn [fst snd disk stdout].
  - rewrite view_students_run. cbn [fst snd disk stdout].
    repeat split. eexists. split; reflexivity.
  - rewrite view_students_run. cbn [fst snd disk stdout].
    repeat split. eexists. split; reflexivity.
Qed.

(** C8. [add_student] creates the file when it is missing, puts the text
    [roll,name,marks] and a line feed after what the file held, which it
    does not touch, prints "Student added successfully!" and returns
    normally, for every input. When the three values are console lines
    and the last line of the file was ended, the lines of the file are the
    former lines followed by the one new line. *)
Theorem add_appends_one_line :
  forall (roll name marks : string) (d : option string) (o : list string),
    let before := match d with Some content => content | None => "" end in
    let line := roll ++ "," ++ name ++ "," ++ marks ++ String LF "" in
    add_student roll name marks {| disk := d; stdout := o |}
    = (Return tt,
       {| disk := Some (before ++ line);
          stdout := (o ++ ["Student added successfully!"])%list |})
    /\ (console_line roll = true -> console_line name = true ->
        console_line marks = true -> newline_terminated before = true ->
        readlines (before ++ line) = (readlines before ++ [line])%list).
Proof.
  intros roll name marks d o before line. split.
  - apply add_student_run.
  - intros Hr Hn Hm Hb. rewrite (readlines_app _ _ Hb). f_equal.
    apply readlines_record_line;
      (now apply console_line_no_LF) || (now apply console_line_no_CR).
Qed.

Lemma add_appends_one_line_witness :
  readlines (record_line "1" "A" "10" ++ "2" ++ "," ++ "B" ++ "," ++ "20" ++ String LF "")
  = [record_line "1" "A" "10"; record_line "2" "B" "20"].
Proof.
  exact (proj2 (add_appends_one_line "2" "B" "20"
                  (Some (record_line "1" "A" "10")) [])
           eq_refl eq_refl eq_refl eq_refl).
Defined.

(** C4, as the claim states it, fails: on a file that exists and is empty
    [view_students] prints the two header lines and nothing else; the
    message "No records found." is not printed. The same holds for the
    empty file a session leaves after deleting its only record. *)
Lemma view_empty_file_prints_header :
  view_students {| disk := Some ""; stdout := [] |}
  = (Return tt,
     {| disk := Some "";
        stdout := [String LF "Roll | Name | Marks"; "-------------------"] |})
  /\ ~ In "No records found."
         (stdout (snd (view_students {| disk := Some ""; stdout := [] |})))
  /\ session [Add "1" "A" "10"; Delete "1"; View] fresh
     = (Return tt,
        {| disk := Some "";
           stdout := ["Student added successfully!";
                      "Student deleted successfully.";
                      String LF "Roll | Name | Marks";
                      "-------------------"] |}).
Proof.
  split; [reflexivity|]. split; [|reflexivity].
  simpl. intros [H|[H|[]]]; discriminate.
Qed.

(** C4, amended. With no file, [view_students] prints "No records found."
    and returns normally. On a file that exists and is empty it prints the
    header line and the rule under it, no row and no message, and returns
    normally as well. *)
Theorem view_no_records :
  forall (o : list string),
    view_students {| disk := None; stdout := o |}
    = (Return tt,
       {| disk := None; stdout := (o ++ ["No records found."])%list |})
    /\ view_students {| disk := Some ""; stdout := o |}
       = (Return tt,
          {| disk := Some "";
             stdout := (o ++ [String LF "Roll | Name | Marks";
                              "-------------------"])%list |}).
Proof.
  intros o. split; [reflexivity|].
  rewrite view_students_run. reflexivity.
Qed.

(** C2, as the claim states it, fails. White space before the roll and
    after the marks is stripped when the line is read, so the row printed
    is not the one typed in; with a comma in the name the line has four
    fields and [view_students] stops with [ValueError] before any row. *)
Lemma add_then_view_row_differs :
  session [Add " 1" "A" "10"; View] fresh
  = (Return tt,
     {| disk := Some (" 1,A,10" ++ String LF "");
        stdout := ["Student added successfully!";
                   String LF "Roll | Name | Marks"; "-------------------";
                   "1 | A | 10"] |})
  /\ ~ In " 1 | A | 10"
         (stdout (snd (session [Add " 1" "A" "10"; View] fresh)))
  /\ ~ In "1 | A | 10 "
         (stdout (snd (session [Add "1" "A" "10 "; View] fresh)))
  /\ session [Add "1" "A,B" "10"; View] fresh
     = (Raise ValueError,
        {| disk := Some ("1,A,B,10" ++ String LF "");
           stdout := ["Student added successfully!";
                      String LF "Roll | Name | Marks";
                      "-------------------"] |})
  /\ ~ In "1 | A,B | 10"
         (stdout (snd (session [Add "1" "A,B" "10"; View] fresh))).
Proof.
  split; [reflexivity|].
  split; [simpl; intros [H|[H|[H|[H|[]]]]]; discriminate|].
  split; [simpl; intros [H|[H|[H|[H|[]]]]]; discriminate|].
  split; [reflexivity|].
  simpl; intros [H|[H|[H|[]]]]; discriminate.
Qed.

(** C2, amended. On a store of records whose last line is ended (or with
    no file), for a roll, a name and marks that are console lines without
    a comma, the roll not starting and the marks not ending with white
    space, [add_student] followed by [view_students] returns normally and
    prints, after the rows of the records already stored, the row
    [roll | name | marks] as its last line. *)
Theorem add_then_view_shows_row :
  forall (roll name marks : string) (d : option string) (o : list string),
    store_ok d = true ->
    field roll = true -> field name = true -> field marks = true ->
    lstrip roll = roll -> rstrip marks = marks ->
    let before := match d with Some content => content | None => "" end in
    let after := session [Add roll name marks; View]
                   {| disk := d; stdout := o |} in
    after
    = (Return tt,
       {| disk := Some (before ++ roll ++ "," ++ name ++ "," ++ marks
                        ++ String LF "");
          stdout := (o ++ ["Student added successfully!";
                           String LF "Roll | Name | Marks";
                           "-------------------"]
                       ++ fst (listing (readlines before))
                       ++ [(roll ++ " | " ++ name ++ " | " ++ marks)%string])%list |})
    /\ In (roll ++ " | " ++ name ++ " | " ++ marks) (stdout (snd after)).
Proof.
  intros roll name marks d o Hd Hr Hn Hm Hl Ht before after.
  apply store_ok_parts in Hd as [Hw Hb]. fold before in Hw, Hb.
  apply field_parts in Hr as (Hr1 & Hr2 & Hr3).
  apply field_parts in Hn as (Hn1 & Hn2 & Hn3).
  apply field_parts in Hm as (Hm1 & Hm2 & Hm3).
  assert (E : after
    = (Return tt,
       {| disk := Some (before ++ record_line roll name marks);
          stdout := (o ++ ["Student added successfully!";
                           String LF "Roll | Name | Marks";
                           "-------------------"]
                       ++ fst (listing (readlines before))
                       ++ [row roll name marks])%list |})).
  { unfold after. cbn [session run_command].
    unfold bind at 1. rewrite add_student_run. fold before.
    unfold bind at 1. rewrite view_students_run.
    rewrite (readlines_app _ _ Hb), readlines_record_line by assumption.
    rewrite (listing_app _ _ Hw). cbn [listing fst snd].
    rewrite parse_record_line by assumption. cbn [fst snd].
    unfold ret, header. rewrite <- !app_assoc. reflexivity. }
  split; [exact E|].
  rewrite E. cbn [snd stdout].
  rewrite !in_app_iff. right. right. right. left. reflexivity.
Qed.

Lemma add_then_view_shows_row_witness :
  In "2 | B | 20"
     (stdout (snd (session [Add "2" "B" "20"; View]
                     {| disk := Some (record_line "1" "A" "10");
                        stdout := [] |}))).
Proof.
  exact (proj2 (add_then_view_shows_row "2" "B" "20"
                  (Some (record_line "1" "A" "10")) []
                  eq_refl eq_refl eq_refl eq_refl eq_refl eq_refl)).
Defined.

(** C3, as the claim states it, fails. When the roll is already stored,
    [search_student] after [add_student] prints the older record, the
    first in line order, not the one just added. A roll typed with
    leading white space is not found at all, because the stored roll is
    stripped before the comparison. *)
Lemma search_after_add_finds_older :
  session [Add "1" "A" "10"; Add "1" "B" "20"; Search "1"] fresh
  = (Return tt,
     {| disk := Some ("1,A,10" ++ String LF "1,B,20" ++ String LF "");
        stdout := ["Student added successfully!";
                   "Student added successfully!";
                   "Found: 1 | A | 10"] |})
  /\ ~ In "Found: 1 | B | 20"
         (stdout (snd (session [Add "1" "A" "10"; Add "1" "B" "20";
                                Search "1"] fresh)))
  /\ session [Add " 1" "A" "10"; Search " 1"] fresh
     = (Return tt,
        {| disk := Some (" 1,A,10" ++ String LF "");
           stdout := ["Student added successfully!";
                      "Student not found."] |}).
Proof.
  split; [reflexivity|]. split; [|reflexivity].
  simpl; intros [H|[H|[H|[]]]]; discriminate.
Qed.

(** C3, amended. [search_student] goes through the lines from the first:
    when the lines before some line are records with other rolls and that
    line is a record with the roll asked for, it prints that record and
    returns, whatever follows; when every line is a record with another
    roll it prints "Student not found.". After [add_student] of fields
    (the roll not starting, the marks not ending with white space) to a
    store whose last line is ended and whose records all have other
    rolls, it prints the record just added. *)
Theorem search_first_match :
  (forall (roll_no content : string) (o : list string)
          (before after : list string) (line name marks : string),
      readlines content = (before ++ line :: after)%list ->
      forallb (differs roll_no) before = true ->
      parse line = Some (roll_no, name, marks) ->
      search_student roll_no {| disk := Some content; stdout := o |}
      = (Return tt,
         {| disk := Some content;
            stdout := (o ++ [("Found: " ++ roll_no ++ " | " ++ name
                              ++ " | " ++ marks)%string])%list |}))
  /\ (forall (roll_no content : string) (o : list string),
         forallb (differs roll_no) (readlines content) = true ->
         search_student roll_no {| disk := Some content; stdout := o |}
         = (Return tt,
            {| disk := Some content;
               stdout := (o ++ ["Student not found."])%list |}))
  /\ (forall (roll name marks : string) (d : option string) (o : list string),
         let before := match d with Some content => content | None => "" end in
         forallb (differs roll) (readlines before) = true ->
         newline_terminated before = true ->
         field roll = true -> field name = true -> field marks = true ->
         lstrip roll = roll -> rstrip marks = marks ->
         session [Add roll name marks; Search roll] {| disk := d; stdout := o |}
         = (Return tt,
            {| disk := Some (before ++ roll ++ "," ++ name ++ "," ++ marks
                             ++ String LF "");
               stdout := (o ++ ["Student added successfully!";
                                ("Found: " ++ roll ++ " | " ++ name
                                 ++ " | " ++ marks)%string])%list |})).
Proof.
  split; [|split].
  - intros roll_no content o before after line name marks Hl Hb Hp.
    rewrite search_student_run, Hl, (scan_first _ _ _ _ _ _ Hb Hp).
    reflexivity.
  - intros roll_no content o Hb.
    rewrite search_student_run, (scan_miss _ _ Hb). reflexivity.
  - intros roll name marks d o before Hb Ht Hr Hn Hm Hl Hs.
    apply field_parts in Hr as (Hr1 & Hr2 & Hr3).
    apply field_parts in Hn as (Hn1 & Hn2 & Hn3).
    apply field_parts in Hm as (Hm1 & Hm2 & Hm3).
    cbn [session run_command].
    unfold bind at 1. rewrite add_student_run. fold before.
    unfold bind at 1. rewrite search_student_run.
    rewrite (readlines_app _ _ Ht), readlines_record_line by assumption.
    rewrite (scan_first roll (readlines before) [] _ name marks Hb)
      by (now apply parse_record_line).
    unfold ret. rewrite <- app_assoc. reflexivity.
Qed.

Lemma search_first_match_witness :
  search_student "1"
    {| disk := Some (record_line "2" "Z" "5" ++ record_line "1" "A" "10"
                     ++ record_line "1" "B" "20" ++ "not a record");
       stdout := [] |}
  = (Return tt,
     {| disk := Some (record_line "2" "Z" "5" ++ record_line "1" "A" "10"
                      ++ record_line "1" "B" "20" ++ "not a record");
        stdout := ["Found: 1 | A | 10"] |}).
Proof.
  exact (proj1 search_first_match "1"
           (record_line "2" "Z" "5" ++ record_line "1" "A" "10"
            ++ record_line "1" "B" "20" ++ "not a record") []
           [record_line "2" "Z" "5"]
           [record_line "1" "B" "20"; "not a record"]
           (record_line "1" "A" "10") "A" "10"
           eq_refl eq_refl eq_refl).
Defined.

(** C7. [add_student] writes the fields as they were typed, joined by
    commas, whatever they hold, and reports success. When a field holds a
    comma, no line of any file reads back as the three fields that were
    added, because the fields a line unpacks into hold no comma. And the
    readers can go wrong without a word: for the roll "1", the name
    "A,x", a carriage return, "2,B" and the marks "10", which [input]
    can return, the text stored is read as the two lines "1,A,x" and
    "2,B,10"; [view_students] lists two records that were never added,
    [search_student] finds the roll "2", and [delete_student] deletes
    it, each returning normally. *)
Theorem comma_in_name_corrupts_reading :
  (forall (roll name marks : string) (d : option string) (o : list string),
      add_student roll name marks {| disk := d; stdout := o |}
      = (Return tt,
         {| disk := Some (match d with Some content => content | None => "" end
                          ++ roll ++ "," ++ name ++ "," ++ marks
                          ++ String LF "");
            stdout := (o ++ ["Student added successfully!"])%list |}))
  /\ (forall (roll name marks line : string),
         contains comma roll || contains comma name || contains comma marks
         = true ->
         parse line <> Some (roll, name, marks))
  /\ (let roll := "1" in
      let name := "A,x" ++ String CR "2,B" in
      let marks := "10" in
      contains comma name = true
      /\ contains LF roll = false /\ contains LF name = false
      /\ contains LF marks = false
      /\ map parse (readlines (roll ++ "," ++ name ++ "," ++ marks
                               ++ String LF ""))
         = [Some ("1", "A", "x"); Some ("2", "B", "10")]
      /\ session [Add roll name marks; View] fresh
         = (Return tt,
            {| disk := Some (roll ++ "," ++ name ++ "," ++ marks
                             ++ String LF "");
               stdout := ["Student added successfully!";
                          String LF "Roll | Name | Marks";
                          "-------------------";
                          "1 | A | x"; "2 | B | 10"] |})
      /\ session [Add roll name marks; Search "2"] fresh
         = (Return tt,
            {| disk := Some (roll ++ "," ++ name ++ "," ++ marks
                             ++ String LF "");
               stdout := ["Student added successfully!";
                          "Found: 2 | B | 10"] |})
      /\ session [Add roll name marks; Delete "2"] fresh
         = (Return tt,
            {| disk := Some ("1,A,x" ++ String LF "");
               stdout := ["Student added successfully!";
                          "Student deleted successfully."] |})).
Proof.
  split; [|split].
  - intros roll name marks d o. apply add_student_run.
  - intros roll name marks line H P.
    destruct (parsed_fields_plain _ _ _ _ P) as (Hr & Hn & Hm).
    rewrite Hr, Hn, Hm in H. discriminate.
  - cbv zeta. repeat split; reflexivity.
Qed.

Lemma comma_in_name_corrupts_reading_witness :
  parse ("1,A,B,10" ++ String LF "") <> Some ("1", "A,B", "10").
Proof.
  exact (proj1 (proj2 comma_in_name_corrupts_reading)
           "1" "A,B" "10" ("1,A,B,10" ++ String LF "") eq_refl).
Defined.

(** ** More on lines and fields *)

Lemma commas_zero (s : string) : contains comma s = false <-> commas s = 0.
Proof.
  induction s as [|c s IH]; simpl; [tauto|].
  destruct (Ascii.eqb c comma); simpl; [split; [discriminate | lia]|exact IH].
Qed.

Lemma lstrip_fixed_head (c : ascii) (s : string) :
  lstrip (String c s) = String c s -> isspace c = false.
Proof.
  simpl. destruct (isspace c); [|reflexivity].
  intros H. pose proof (length_lstrip s) as L. rewrite H in L. simpl in L. lia.
Qed.

Lemma lstrip_idem (s : string) : lstrip (lstrip s) = lstrip s.
Proof.
  induction s as [|c s IH]; simpl; [reflexivity|].
  destruct (isspace c) eqn:E; [assumption|]. simpl. now rewrite E.
Qed.

(** Before text that starts with a comma, only the white space in front
    of the string itself is stripped. *)
Lemma lstrip_app_comma (r t : string) :
  lstrip (r ++ String comma t) = lstrip r ++ String comma t.
Proof.
  induction r as [|c r IH]; simpl; [reflexivity|].
  destruct (isspace c); [assumption | reflexivity].
Qed.

Lemma contains_lstrip (c : ascii) (s : string) :
  contains c s = false -> contains c (lstrip s) = false.
Proof.
  induction s as [|x s IH]; simpl; [reflexivity|].
  intros H. apply orb_false_iff in H as [Hx Hs].
  destruct (isspace x); [auto|]. simpl. now rewrite Hx, Hs.
Qed.

(** The first field of a text that does not start with white space does
    not start with white space either. *)
Lemma first_field_fixed (s f : string) (fs : list string) :
  lstrip s = s -> split s = f :: fs -> lstrip f = f.
Proof.
  destruct s as [|c s].
  - simpl. intros _ H. injection H as <- _. reflexivity.
  - intros H. pose proof (lstrip_fixed_head c s H) as E. simpl.
    destruct (Ascii.eqb c comma).
    + intros S. injection S as <- _. reflexivity.
    + destruct (split s); intros S; injection S as <- _; simpl; now rewrite E.
Qed.

(** What the readers get from the line [add_student] wrote for fields
    without a comma: the roll without the white space in front of it,
    the name, and the marks without the white space behind them. *)
Lemma parse_record_line_stripped (roll name marks : string) :
  contains comma roll = false -> contains comma name = false ->
  contains comma marks = false ->
  parse (record_line roll name marks)
  = Some (lstrip roll, name, rstrip marks).
Proof.
  intros Hr Hn Hm. unfold parse, strip, record_line.
  replace (roll ++ "," ++ name ++ "," ++ marks ++ String LF "")
    with ((roll ++ "," ++ name ++ "," ++ marks) ++ String LF "")
    by (now rewrite !append_assoc).
  rewrite rstrip_app_blank by reflexivity.
  replace (roll ++ "," ++ name ++ "," ++ marks)
    with ((roll ++ "," ++ name) ++ String comma marks)
    by (now rewrite !append_assoc).
  rewrite (rstrip_app_solid (roll ++ "," ++ name) (String comma marks))
    by (rewrite rstrip_comma; discriminate).
  rewrite rstrip_comma, append_assoc.
  change ("," ++ name) with (String comma name). cbn [append].
  rewrite lstrip_app_comma.
  rewrite (split_app_comma (lstrip roll)) by (now apply contains_lstrip).
  rewrite (split_app_comma name) by assumption.
  rewrite split_plain; [reflexivity|].
  apply commas_zero. rewrite commas_rstrip. now apply commas_zero.
Qed.

Lemma parsed_roll_shape (line roll name marks : string) :
  parse line = Some (roll, name, marks) ->
  lstrip roll = roll /\ contains comma roll = false.
Proof.
  unfold parse. intros H.
  pose proof (split_fields_plain (strip line)) as P.
  assert (F : lstrip (strip line) = strip line) by apply lstrip_idem.
  destruct (split (strip line)) as [|a [|b [|c [|x l]]]] eqn:S;
    try discriminate.
  injection H as -> -> ->. split.
  - exact (first_field_fixed _ _ _ F S).
  - now inversion P.
Qed.

Lemma listing_rows (lines : list string) :
  forallb parses lines = true -> listing lines = (map row_of lines, true).
Proof.
  induction lines as [|line rest IH]; simpl; [reflexivity|].
  intros H. apply andb_true_iff in H as [Hl Hrest].
  unfold parses in Hl. unfold row_of at 1.
  destruct (parse line) as [[[roll name] marks]|]; [|discriminate].
  now rewrite (IH Hrest).
Qed.

Lemma listing_stops (before after : list string) (bad : string) :
  forallb parses before = true -> parse bad = None ->
  listing (before ++ bad :: after) = (map row_of before, false).
Proof.
  intros Hb Hp. rewrite (listing_app _ _ Hb), (listing_rows _ Hb).
  simpl. rewrite Hp. simpl. now rewrite app_nil_r.
Qed.

Lemma scan_stops (roll_no : string) (before after : list string)
      (bad : string) :
  forallb (differs roll_no) before = true -> parse bad = None ->
  scan roll_no (before ++ bad :: after) = Malformed.
Proof.
  intros Hb Hp. induction before as [|l rest IH]; simpl.
  - now rewrite Hp.
  - simpl in Hb. apply andb_true_iff in Hb as [Hd Hrest]. unfold differs in Hd.
    destruct (parse l) as [[[r n] m]|]; [|discriminate].
    apply negb_true_iff in Hd. rewrite Hd. now apply IH.
Qed.

Lemma sweep_stops (roll_no : string) (before after : list string)
      (bad : string) (found : bool) :
  forallb parses before = true -> parse bad = None ->
  sweep roll_no (before ++ bad :: after) found
  = (filter (keep roll_no) before, None).
Proof.
  intros Hb Hp. revert found.
  induction before as [|l rest IH]; intros found; simpl.
  - now rewrite Hp.
  - simpl in Hb. apply andb_true_iff in Hb as [Hl Hrest].
    unfold parses in Hl. unfold keep at 1, has_roll.
    destruct (parse l) as [[[r n] m]|]; [|discriminate].
    destruct (String.eqb r roll_no); simpl; now rewrite (IH Hrest).
Qed.

Lemma differs_of_keep (roll_no : string) (lines : list string) :
  forallb parses lines = true ->
  forallb (differs roll_no) (filter (keep roll_no) lines) = true.
Proof.
  induction lines as [|l rest IH]; simpl; [reflexivity|].
  intros H. apply andb_true_iff in H as [Hl Hrest].
  unfold parses in Hl. unfold keep at 1, has_roll.
  destruct (parse l) as [[[r n] m]|] eqn:P; [|discriminate].
  destruct (String.eqb r roll_no) eqn:E; simpl; [auto|].
  unfold differs at 1. rewrite P, E. simpl. auto.
Qed.

Lemma filter_all {A} (f : A -> bool) (l : list A) :
  forallb f l = true -> filter f l = l.
Proof.
  induction l as [|x l IH]; simpl; [reflexivity|].
  intros H. apply andb_true_iff in H as [Hx Hl]. now rewrite Hx, (IH Hl).
Qed.

Lemma differs_keep (roll_no : string) (lines : list string) :
  forallb (differs roll_no) lines = true ->
  forallb (keep roll_no) lines = true
  /\ existsb (has_roll roll_no) lines = false.
Proof.
  induction lines as [|l rest IH]; simpl; [auto|].
  intros H. apply andb_true_iff in H as [Hd Hrest].
  destruct (IH Hrest) as [IH1 IH2]. unfold keep at 1, has_roll at 1 2.
  unfold differs in Hd.
  destruct (parse l) as [[[r n] m]|]; [|discriminate].
  apply negb_true_iff in Hd. rewrite Hd. simpl. auto.
Qed.

(** ** Beyond the claims: lines and fields *)

(** X1. For a roll, a name and marks typed without a line break, the
    line [add_student] writes is read as one line. When they hold no
    comma, it reads back as the roll without its leading white space, the
    name, and the marks without their trailing white space, and that is
    the row [view_students] lists. So the record reads back as it was
    typed exactly when no field holds a comma, the roll does not start
    and the marks do not end with white space. *)
Theorem record_reads_back_stripped :
  forall (roll name marks : string),
    console_line roll = true -> console_line name = true ->
    console_line marks = true ->
    let line := roll ++ "," ++ name ++ "," ++ marks ++ String LF "" in
    (contains comma roll = false -> contains comma name = false ->
     contains comma marks = false ->
     map parse (readlines line) = [Some (lstrip roll, name, rstrip marks)]
     /\ session [Add roll name marks; View] fresh
        = (Return tt,
           {| disk := Some line;
              stdout := ["Student added successfully!";
                         String LF "Roll | Name | Marks";
                         "-------------------";
                         lstrip roll ++ " | " ++ name ++ " | "
                         ++ rstrip marks] |}))
    /\ (map parse (readlines line) = [Some (roll, name, marks)]
        <-> contains comma roll = false /\ contains comma name = false
            /\ contains comma marks = false
            /\ lstrip roll = roll /\ rstrip marks = marks).
Proof.
  intros roll name marks Cr Cn Cm line.
  assert (R : readlines line = [line]).
  { apply readlines_record_line;
      (now apply console_line_no_LF) || (now apply console_line_no_CR). }
  rewrite R. cbn [map]. fold (record_line roll name marks) in line.
  split.
  - intros Hr Hn Hm.
    pose proof (parse_record_line_stripped _ _ _ Hr Hn Hm) as P.
    split; [unfold line; now rewrite P|].
    cbn [session run_command]. unfold bind at 1. unfold fresh.
    rewrite add_student_run. cbn [append].
    unfold bind at 1. rewrite view_students_run. fold line. rewrite R.
    assert (L : listing [line]
                = ([row (lstrip roll) name (rstrip marks)], true))
      by (cbn [listing]; unfold line; now rewrite P).
    rewrite L. reflexivity.
  - split.
    + intros H. injection H as H.
      destruct (contains comma roll || contains comma name
                || contains comma marks) eqn:C.
      * destruct (parse_line_with_comma roll name marks C) as [_ P].
        unfold line in H. congruence.
      * apply orb_false_iff in C as [C Hm].
        apply orb_false_iff in C as [Hr Hn].
        unfold line in H.
        rewrite (parse_record_line_stripped _ _ _ Hr Hn Hm) in H.
        injection H as H1 H2. auto.
    + intros (Hr & Hn & Hm & Hl & Ht). unfold line.
      rewrite (parse_record_line_stripped _ _ _ Hr Hn Hm). now rewrite Hl, Ht.
Qed.

Lemma record_reads_back_stripped_witness :
  map parse (readlines (String "009" " 7" ++ "," ++ "Ann Lee" ++ "," ++ "88  "
                        ++ String LF ""))
  = [Some ("7", "Ann Lee", "88")].
Proof.
  exact (proj1 (proj1 (record_reads_back_stripped
                         (String "009" " 7") "Ann Lee" "88  "
                         eq_refl eq_refl eq_refl)
                  eq_refl eq_refl eq_refl)).
Defined.

(** X2. A line unpacks into roll, name and marks exactly when it holds
    two commas, whatever white space is around it; any other line, a
    blank one included, makes the unpacking raise [ValueError]. *)
Theorem line_unpacks_iff_two_commas :
  forall (line : string) (w : world),
    ((exists t, unpack3 (split (strip line)) w = (Return t, w))
     <-> commas line = 2)
    /\ (commas line <> 2 ->
        unpack3 (split (strip line)) w = (Raise ValueError, w)).
Proof.
  intros line w. rewrite unpack3_parse.
  pose proof (parses_commas line) as E. unfold parses in E.
  destruct (parse line) as [t|].
  - symmetry in E. apply Nat.eqb_eq in E. split; [|congruence].
    split; [auto | eauto].
  - symmetry in E. apply Nat.eqb_neq in E. split; [|reflexivity].
    split; [intros [t H]; discriminate | tauto].
Qed.

Lemma line_unpacks_iff_two_commas_witness :
  unpack3 (split (strip (String LF ""))) fresh = (Raise ValueError, fresh).
Proof.
  refine (proj2 (line_unpacks_iff_two_commas (String LF "") fresh) _).
  discriminate.
Defined.

(** ** Beyond the claims: the three readers *)

(** X3. A roll that starts with white space or holds a comma is the roll
    of no stored line: [search_student] never prints "Found" for it, it
    reports "Student not found." or stops at a malformed line, and on a
    store of records [delete_student] rewrites the file as it was read,
    every line of it, and reports "Student not found.". *)
Theorem unreachable_roll_never_matches :
  forall (roll_no content : string) (o : list string),
    lstrip roll_no <> roll_no \/ contains comma roll_no = true ->
    (forall line, has_roll roll_no line = false)
    /\ (search_student roll_no {| disk := Some content; stdout := o |}
        = (Return tt,
           {| disk := Some content;
              stdout := (o ++ ["Student not found."])%list |})
        \/ search_student roll_no {| disk := Some content; stdout := o |}
           = (Raise ValueError, {| disk := Some content; stdout := o |}))
    /\ (well_formed content = true ->
        delete_student roll_no {| disk := Some content; stdout := o |}
        = (Return tt,
           {| disk := Some (universal_newlines content);
              stdout := (o ++ ["Student not found."])%list |})).
Proof.
  intros roll_no content o Hq.
  assert (N : forall line, has_roll roll_no line = false).
  { intros line. unfold has_roll.
    destruct (parse line) as [[[r n] m]|] eqn:P; [|reflexivity].
    destruct (parsed_roll_shape _ _ _ _ P) as [Hl Hc].
    destruct (String.eqb_spec r roll_no) as [->|]; [|reflexivity].
    destruct Hq as [Hq|Hq]; congruence. }
  split; [exact N|]. split.
  - rewrite search_student_run.
    assert (S : forall lines, scan roll_no lines <> Miss ->
                              scan roll_no lines = Malformed).
    { induction lines as [|l rest IH]; simpl; [congruence|].
      pose proof (N l) as Nl. unfold has_roll in Nl.
      destruct (parse l) as [[[r n] m]|]; [|reflexivity].
      rewrite Nl. exact IH. }
    destruct (scan roll_no (readlines content)) eqn:E; auto.
    specialize (S (readlines content)). rewrite E in S.
    discriminate S. discriminate.
  - intros W. apply delete_absent_roll_unchanged.
    unfold well_formed in W.
    induction (readlines content) as [|l rest IH]; simpl; [reflexivity|].
    simpl in W. apply andb_true_iff in W as [Wl Wrest].
    rewrite (IH Wrest), andb_true_r.
    pose proof (N l) as Nl. unfold has_roll in Nl. unfold parses in Wl.
    unfold differs. destruct (parse l) as [[[r n] m]|]; [|discriminate].
    now rewrite Nl.
Qed.

Lemma unreachable_roll_never_matches_witness :
  search_student " 7"
    {| disk := Some (record_line " 7" "Ann" "88"); stdout := [] |}
  = (Return tt,
     {| disk := Some (record_line " 7" "Ann" "88");
        stdout := ["Student not found."] |})
  \/ search_student " 7"
       {| disk := Some (record_line " 7" "Ann" "88"); stdout := [] |}
     = (Raise ValueError,
        {| disk := Some (record_line " 7" "Ann" "88"); stdout := [] |}).
Proof.
  refine (proj1 (proj2 (unreachable_roll_never_matches " 7"
                          (record_line " 7" "Ann" "88") [] _))).
  left. discriminate.
Defined.

(** X4. On a store of records [view_students] prints the two header
    lines and then one row for every line of the file, in the order of
    the file, and returns normally with the file unchanged. *)
Theorem view_lists_every_line :
  forall (content : string) (o : list string),
    well_formed content = true ->
    view_students {| disk := Some content; stdout := o |}
    = (Return tt,
       {| disk := Some content;
          stdout := (o ++ [String LF "Roll | Name | Marks";
                           "-------------------"]
                       ++ map row_of (readlines content))%list |}).
Proof.
  intros content o H. rewrite view_students_run.
  unfold well_formed in H. now rewrite (listing_rows _ H).
Qed.

Lemma view_lists_every_line_witness :
  view_students
    {| disk := Some (record_line "1" "A" "10" ++ record_line "2" "B" "20");
       stdout := [] |}
  = (Return tt,
     {| disk := Some (record_line "1" "A" "10" ++ record_line "2" "B" "20");
        stdout := [String LF "Roll | Name | Marks"; "-------------------";
                   "1 | A | 10"; "2 | B | 20"] |}).
Proof.
  exact (view_lists_every_line
           (record_line "1" "A" "10" ++ record_line "2" "B" "20") [] eq_refl).
Defined.

(** X5. When the lines before some line unpack and that line does not,
    [view_students] prints the header and the rows of the lines before
    it and then ends in [ValueError]; the lines after it are not shown
    and the file is unchanged. *)
Theorem view_stops_at_malformed_line :
  forall (content : string) (o : list string) (before after : list string)
         (bad : string),
    readlines content = (before ++ bad :: after)%list ->
    forallb parses before = true ->
    parse bad = None ->
    view_students {| disk := Some content; stdout := o |}
    = (Raise ValueError,
       {| disk := Some content;
          stdout := (o ++ [String LF "Roll | Name | Marks";
                           "-------------------"]
                       ++ map row_of before)%list |}).
Proof.
  intros content o before after bad Hl Hb Hp.
  rewrite view_students_run, Hl, (listing_stops _ _ _ Hb Hp). reflexivity.
Qed.

Lemma view_stops_at_malformed_line_witness :
  view_students
    {| disk := Some (record_line "1" "A" "10" ++ String LF ""
                     ++ record_line "2" "B" "20");
       stdout := [] |}
  = (Raise ValueError,
     {| disk := Some (record_line "1" "A" "10" ++ String LF ""
                      ++ record_line "2" "B" "20");
        stdout := [String LF "Roll | Name | Marks"; "-------------------";
                   "1 | A | 10"] |}).
Proof.
  exact (view_stops_at_malformed_line
           (record_line "1" "A" "10" ++ String LF ""
            ++ record_line "2" "B" "20") []
           [record_line "1" "A" "10"] [record_line "2" "B" "20"]
           (String LF "") eq_refl eq_refl eq_refl).
Defined.

(** X6. When the lines before some line are records with other rolls
    and that line does not unpack, [search_student] ends in
    [ValueError] without printing anything, also when a record with the
    roll asked for comes later in the file. *)
Theorem search_stops_at_malformed_line :
  forall (roll_no content : string) (o : list string)
         (before after : list string) (bad : string),
    readlines content = (before ++ bad :: after)%list ->
    forallb (differs roll_no) before = true ->
    parse bad = None ->
    search_student roll_no {| disk := Some content; stdout := o |}
    = (Raise ValueError, {| disk := Some content; stdout := o |}).
Proof.
  intros roll_no content o before after bad Hl Hb Hp.
  rewrite search_student_run, Hl, (scan_stops _ _ _ _ Hb Hp). reflexivity.
Qed.

Lemma search_stops_at_malformed_line_witness :
  search_student "2"
    {| disk := Some (record_line "1" "A" "10" ++ "1,A,B,10" ++ String LF ""
                     ++ record_line "2" "B" "20");
       stdout := [] |}
  = (Raise ValueError,
     {| disk := Some (record_line "1" "A" "10" ++ "1,A,B,10" ++ String LF ""
                      ++ record_line "2" "B" "20");
        stdout := [] |}).
Proof.
  exact (search_stops_at_malformed_line "2"
           (record_line "1" "A" "10" ++ "1,A,B,10" ++ String LF ""
            ++ record_line "2" "B" "20") []
           [record_line "1" "A" "10"] [record_line "2" "B" "20"]
           ("1,A,B,10" ++ String LF "") eq_refl eq_refl eq_refl).
Defined.

(** X7. [search_student] only reads: whatever the store holds, the file
    is afterwards as it was, at most one line is printed, and none when
    it ends in an exception. *)
Theorem search_reads_only :
  forall (roll_no : string) (w : world),
    let r := search_student roll_no w in
    disk (snd r) = disk w
    /\ exists out,
        stdout (snd r) = (stdout w ++ out)%list
        /\ List.length out <= 1
        /\ (fst r <> Return tt -> out = []).
Proof.
  intros roll_no [d o]. cbv zeta. rewrite search_student_run.
  destruct d as [content|].
  - destruct (scan roll_no (readlines content)); cbn [fst snd disk stdout];
      (split; [reflexivity|]).
    + eexists. split; [reflexivity|]. split; [simpl; lia | congruence].
    + eexists. split; [reflexivity|]. split; [simpl; lia | congruence].
    + exists []. rewrite app_nil_r. split; [reflexivity|].
      split; [simpl; lia | reflexivity].
  - cbn [fst snd disk stdout]. split; [reflexivity|].
    exists []. rewrite app_nil_r. split; [reflexivity|].
    split; [simpl; lia | reflexivity].
Qed.

(** ** Beyond the claims: deleting *)

Lemma show_menu_run (d : option string) (o : list string) :
  show_menu {| disk := d; stdout := o |}
  = (Return tt, {| disk := d; stdout := (o ++ banner)%list |}).
Proof.
  unfold show_menu, bind, print, banner. cbn [disk stdout fst snd].
  now rewrite <- !app_assoc.
Qed.

Lemma menu_add (roll name marks : string) (rest : list string) (w : world) :
  menu ("1" :: roll :: name :: marks :: rest) w
  = match add_student roll name marks (snd (show_menu w)) with
    | (Return _, w2) => menu rest w2
    | (Raise e, w2) => (Uncaught e, w2)
    end.
Proof. reflexivity. Qed.

Lemma menu_view (rest : list string) (w : world) :
  menu ("2" :: rest) w
  = match view_students (snd (show_menu w)) with
    | (Return _, w2) => menu rest w2
    | (Raise e, w2) => (Uncaught e, w2)
    end.
Proof. reflexivity. Qed.

Lemma menu_search (roll_no : string) (rest : list string) (w : world) :
  menu ("3" :: roll_no :: rest) w
  = match search_student roll_no (snd (show_menu w)) with
    | (Return _, w2) => menu rest w2
    | (Raise e, w2) => (Uncaught e, w2)
    end.
Proof. reflexivity. Qed.

Lemma menu_delete (roll_no : string) (rest : list string) (w : world) :
  menu ("4" :: roll_no :: rest) w
  = match delete_student roll_no (snd (show_menu w)) with
    | (Return _, w2) => menu rest w2
    | (Raise e, w2) => (Uncaught e, w2)
    end.
Proof. reflexivity. Qed.

Lemma menu_exit (rest : list string) (w : world) :
  menu ("5" :: rest) w = (Exited, snd (show_menu w)).
Proof. reflexivity. Qed.

(** X8. With no file, [delete_student] ends with the
    [FileNotFoundError] of the failed open for reading, before the file
    is opened for writing: nothing is printed and no file is created.
    Chosen in the menu, it ends the program, and so does
    [search_student]; the input that follows is not read. *)
Theorem delete_missing_file_raises :
  forall (roll_no : string) (rest : list string) (o : list string),
    delete_student roll_no {| disk := None; stdout := o |}
    = (Raise FileNotFoundError, {| disk := None; stdout := o |})
    /\ menu ("4" :: roll_no :: rest) {| disk := None; stdout := o |}
       = (Uncaught FileNotFoundError,
          {| disk := None; stdout := (o ++ banner)%list |})
    /\ menu ("3" :: roll_no :: rest) {| disk := None; stdout := o |}
       = (Uncaught FileNotFoundError,
          {| disk := None; stdout := (o ++ banner)%list |}).
Proof.
  intros roll_no rest o. split; [reflexivity|]. split.
  - rewrite menu_delete, show_menu_run. reflexivity.
  - rewrite menu_search, show_menu_run. reflexivity.
Qed.

(** X9. When the lines before some line unpack and that line does not,
    [delete_student] ends in [ValueError] after it has emptied the file
    and written back the lines before that line whose roll differs from
    the one asked for: the malformed line and every line after it are
    lost, and no message is printed. *)
Theorem delete_truncates_at_malformed_line :
  forall (roll_no content : string) (o : list string)
         (before after : list string) (bad : string),
    readlines content = (before ++ bad :: after)%list ->
    forallb parses before = true ->
    parse bad = None ->
    delete_student roll_no {| disk := Some content; stdout := o |}
    = (Raise ValueError,
       {| disk := Some (join (filter (keep roll_no) before));
          stdout := o |}).
Proof.
  intros roll_no content o before after bad Hl Hb Hp.
  rewrite delete_student_run, Hl, (sweep_stops _ _ _ _ _ Hb Hp).
  reflexivity.
Qed.

Lemma delete_truncates_at_malformed_line_witness :
  delete_student "9"
    {| disk := Some (record_line "1" "A" "10" ++ "1,A,B,10" ++ String LF ""
                     ++ record_line "2" "B" "20");
       stdout := [] |}
  = (Raise ValueError,
     {| disk := Some (record_line "1" "A" "10"); stdout := [] |}).
Proof.
  exact (delete_truncates_at_malformed_line "9"
           (record_line "1" "A" "10" ++ "1,A,B,10" ++ String LF ""
            ++ record_line "2" "B" "20") []
           [record_line "1" "A" "10"] [record_line "2" "B" "20"]
           ("1,A,B,10" ++ String LF "") eq_refl eq_refl eq_refl).
Defined.

(** X10. On a store of records, after [delete_student] for a roll,
    [search_student] for the same roll reports "Student not found." and
    [view_students] lists exactly the lines with other rolls. *)
Theorem delete_then_search_and_view :
  forall (roll_no content : string) (o : list string),
    well_formed content = true ->
    let kept := filter (keep roll_no) (readlines content) in
    session [Delete roll_no; Search roll_no; View]
      {| disk := Some content; stdout := o |}
    = (Return tt,
       {| disk := Some (join kept);
          stdout := (o ++ [if existsb (has_roll roll_no) (readlines content)
                          then "Student deleted successfully."
                          else "Student not found."]
                       ++ ["Student not found."]
                       ++ [String LF "Roll | Name | Marks";
                           "-------------------"]
                       ++ map row_of kept)%list |}).
Proof.
  intros roll_no content o H kept. cbn [session run_command].
  unfold bind at 1. rewrite (delete_student_records _ _ _ H). fold kept.
  assert (R : readlines (join kept) = kept)
    by apply readlines_join, filter_lines_ok, readlines_ok.
  unfold bind at 1. rewrite search_student_run, R.
  unfold well_formed in H.
  rewrite (scan_miss roll_no kept (differs_of_keep roll_no _ H)).
  unfold bind at 1. rewrite view_students_run, R.
  rewrite (listing_rows kept) by (now apply forallb_filter_mono).
  unfold ret. cbn [fst snd]. now rewrite <- !app_assoc.
Qed.

Lemma delete_then_search_and_view_witness :
  session [Delete "1"; Search "1"; View]
    {| disk := Some (record_line "1" "A" "10" ++ record_line "2" "B" "20"
                     ++ record_line "1" "C" "30");
       stdout := [] |}
  = (Return tt,
     {| disk := Some (record_line "2" "B" "20");
        stdout := ["Student deleted successfully."; "Student not found.";
                   String LF "Roll | Name | Marks"; "-------------------";
                   "2 | B | 20"] |}).
Proof.
  exact (delete_then_search_and_view "1"
           (record_line "1" "A" "10" ++ record_line "2" "B" "20"
            ++ record_line "1" "C" "30") [] eq_refl).
Defined.

(** X11. On a store of records a second [delete_student] for the same
    roll changes nothing more: it rewrites the file the first one left
    and reports "Student not found.". *)
Theorem delete_twice :
  forall (roll_no content : string) (o : list string),
    well_formed content = true ->
    let kept := filter (keep roll_no) (readlines content) in
    session [Delete roll_no; Delete roll_no]
      {| disk := Some content; stdout := o |}
    = (Return tt,
       {| disk := Some (join kept);
          stdout := (o ++ [if existsb (has_roll roll_no) (readlines content)
                          then "Student deleted successfully."
                          else "Student not found."]
                       ++ ["Student not found."])%list |}).
Proof.
  intros roll_no content o H kept. cbn [session run_command].
  unfold bind at 1. rewrite (delete_student_records _ _ _ H). fold kept.
  assert (R : readlines (join kept) = kept)
    by apply readlines_join, filter_lines_ok, readlines_ok.
  unfold well_formed in H.
  unfold bind at 1. rewrite delete_absent_roll_unchanged
    by (rewrite R; now apply differs_of_keep).
  rewrite <- join_readlines, R.
  unfold ret. now rewrite <- !app_assoc.
Qed.

Lemma delete_twice_witness :
  session [Delete "1"; Delete "1"]
    {| disk := Some (record_line "1" "A" "10" ++ record_line "2" "B" "20");
       stdout := [] |}
  = (Return tt,
     {| disk := Some (record_line "2" "B" "20");
        stdout := ["Student deleted successfully."; "Student not found."] |}).
Proof.
  exact (delete_twice "1"
           (record_line "1" "A" "10" ++ record_line "2" "B" "20") [] eq_refl).
Defined.

(** X12. Adding a record and deleting it again gives the file back.
    For fields without a comma or line break, on a store whose last line
    is ended and whose lines are records with other rolls than the one
    added (read without its leading white space), [add_student] followed
    by [delete_student] for that roll leaves the content the file had,
    as it is read (line ends as line feeds); a file that did not exist
    is then there, empty. *)
Theorem add_then_delete_restores :
  forall (roll name marks : string) (d : option string) (o : list string),
    let before := match d with Some content => content | None => "" end in
    forallb (differs (lstrip roll)) (readlines before) = true ->
    newline_terminated before = true ->
    field roll = true -> field name = true -> field marks = true ->
    session [Add roll name marks; Delete (lstrip roll)]
      {| disk := d; stdout := o |}
    = (Return tt,
       {| disk := Some (universal_newlines before);
          stdout := (o ++ ["Student added successfully!";
                           "Student deleted successfully."])%list |}).
Proof.
  intros roll name marks d o before Hb Ht Hr Hn Hm.
  apply field_parts in Hr as (Hr1 & Hr2 & Hr3).
  apply field_parts in Hn as (Hn1 & Hn2 & Hn3).
  apply field_parts in Hm as (Hm1 & Hm2 & Hm3).
  pose proof (parse_record_line_stripped _ _ _ Hr2 Hn2 Hm2) as P.
  destruct (differs_keep _ _ Hb) as [K E].
  cbn [session run_command].
  unfold bind at 1. rewrite add_student_run. fold before.
  unfold bind at 1. rewrite delete_student_records.
  - rewrite (readlines_app _ _ Ht), readlines_record_line by assumption.
    rewrite filter_app, existsb_app, (filter_all _ _ K), E.
    cbn [filter existsb]. unfold keep, has_roll. rewrite P, String.eqb_refl.
    cbn [negb orb app]. rewrite app_nil_r, join_readlines.
    unfold ret. now rewrite <- !app_assoc.
  - unfold well_formed.
    rewrite (readlines_app _ _ Ht), readlines_record_line by assumption.
    rewrite forallb_app, (differs_parses _ _ Hb). cbn [forallb].
    unfold parses. now rewrite P.
Qed.

Lemma add_then_delete_restores_witness :
  session [Add " 2" "B" "20 "; Delete "2"]
    {| disk := Some (record_line "1" "A" "10"); stdout := [] |}
  = (Return tt,
     {| disk := Some (record_line "1" "A" "10");
        stdout := ["Student added successfully!";
                   "Student deleted successfully."] |}).
Proof.
  exact (add_then_delete_restores " 2" "B" "20 "
           (Some (record_line "1" "A" "10")) []
           eq_refl eq_refl eq_refl eq_refl eq_refl).
Defined.

(** ** Beyond the claims: sessions and the menu *)

Lemma scan_records (roll_no : string) (lines : list string) :
  forallb parses lines = true -> scan roll_no lines <> Malformed.
Proof.
  induction lines as [|l rest IH]; simpl; [discriminate|].
  intros H. apply andb_true_iff in H as [Hl Hrest]. unfold parses in Hl.
  destruct (parse l) as [[[r n] m]|]; [|discriminate].
  destruct (String.eqb r roll_no); [discriminate | auto].
Qed.

(** One command on a store the program stays in. *)
Lemma run_command_store_ok (c : command) (d : option string)
      (o : list string) :
  store_ok d = true -> clean c = true ->
  let r := run_command c {| disk := d; stdout := o |} in
  store_ok (disk (snd r)) = true
  /\ fst r <> Raise ValueError
  /\ (d <> None -> fst r = Return tt /\ disk (snd r) <> None).
Proof.
  intros Hd Hc. destruct c as [roll name marks| |roll_no|roll_no];
    cbn [run_command]; cbv zeta.
  - cbn [clean] in Hc. apply andb_true_iff in Hc as [Hc Hm].
    apply andb_true_iff in Hc as [Hr Hn].
    split; [now apply add_keeps_store_ok|].
    rewrite add_student_run. cbn [fst snd disk].
    repeat split; discriminate.
  - rewrite view_students_run. destruct d as [content|].
    + cbn [store_ok] in Hd. pose proof Hd as Hd'.
      apply andb_true_iff in Hd' as [Hw _]. unfold well_formed in Hw.
      rewrite (listing_records _ Hw). cbn [fst snd disk store_ok].
      repeat split; (assumption || discriminate).
    + cbn [fst snd disk store_ok]. repeat split; try discriminate.
      all: congruence.
  - rewrite search_student_run. destruct d as [content|].
    + cbn [store_ok] in Hd. pose proof Hd as Hd'.
      apply andb_true_iff in Hd' as [Hw _]. unfold well_formed in Hw.
      pose proof (scan_records roll_no _ Hw) as S.
      destruct (scan roll_no (readlines content)); cbn [fst snd disk store_ok];
        repeat split; (assumption || discriminate || congruence).
    + cbn [fst snd disk store_ok]. repeat split; try discriminate.
      all: congruence.
  - split; [now apply delete_keeps_store_ok|].
    destruct d as [content|].
    + cbn [store_ok] in Hd. apply andb_true_iff in Hd as [Hw _].
      rewrite (delete_student_records _ _ _ Hw). cbn [fst snd disk].
      repeat split; discriminate.
    + rewrite delete_student_run. cbn [fst snd disk].
      split; [discriminate | congruence].
Qed.

(** X13. A session whose added fields hold no comma and no line break
    stays within the stores of records with an ended last line: started
    on such a store (or with no file) it ends on one, it never ends in
    [ValueError], and when the file exists at the start every operation
    returns normally. *)
Theorem clean_session_keeps_store_ok :
  forall (cs : list command) (w : world),
    store_ok (disk w) = true ->
    forallb clean cs = true ->
    store_ok (disk (snd (session cs w))) = true
    /\ fst (session cs w) <> Raise ValueError
    /\ (disk w <> None -> fst (session cs w) = Return tt).
Proof.
  induction cs as [|c cs IH]; intros [d o] Hd Hc.
  - cbn. repeat split; [assumption | discriminate].
  - cbn [forallb] in Hc. apply andb_true_iff in Hc as [Hc Hcs].
    cbn [disk] in Hd.
    pose proof (run_command_store_ok c d o Hd Hc) as R. cbv zeta in R.
    cbn [session]. unfold bind.
    destruct (run_command c {| disk := d; stdout := o |}) as [[[]|e] w'];
      cbn [fst snd] in *.
    + destruct R as (R1 & _ & R3).
      destruct (IH w' R1 Hcs) as (I1 & I2 & I3).
      split; [assumption|]. split; [assumption|].
      intros Hn. apply I3. now apply R3.
    + destruct R as (R1 & R2 & R3).
      split; [assumption|]. split; [assumption|].
      intros Hn. destruct (R3 Hn). discriminate.
Qed.

Lemma clean_session_keeps_store_ok_witness :
  fst (session [Add "1" "A" "10"; View; Search "2"; Delete "1"; Delete "1";
                Add " 2 " "" ""; View]
         {| disk := Some ""; stdout := [] |})
  = Return tt.
Proof.
  refine (proj2 (proj2 (clean_session_keeps_store_ok
            [Add "1" "A" "10"; View; Search "2"; Delete "1"; Delete "1";
             Add " 2 " "" ""; View]
            {| disk := Some ""; stdout := [] |} eq_refl eq_refl)) _).
  discriminate.
Defined.

(** X14. No operation removes the file: when it exists before a
    session it exists after it, whatever it holds and however the session
    ends. *)
Theorem session_keeps_file :
  forall (cs : list command) (w : world),
    disk w <> None -> disk (snd (session cs w)) <> None.
Proof.
  induction cs as [|c cs IH]; intros [d o] H; [exact H|].
  cbn [disk] in H. destruct d as [content|]; [clear H | congruence].
  cbn [session]. unfold bind at 1.
  assert (K : disk (snd (run_command c {| disk := Some content; stdout := o |}))
              <> None).
  { destruct c as [roll name marks| |roll_no|roll_no]; cbn [run_command].
    - rewrite add_student_run. discriminate.
    - rewrite view_students_run. discriminate.
    - rewrite search_student_run.
      destruct (scan roll_no (readlines content)); discriminate.
    - rewrite delete_student_run.
      destruct (sweep roll_no (readlines content) false) as [kept [[|]|]];
        discriminate. }
  destruct (run_command c {| disk := Some content; stdout := o |})
    as [[[]|e] w']; cbn [snd] in *; [now apply IH | exact K].
Qed.

Lemma session_keeps_file_witness :
  disk (snd (session [Delete "1"; View; Delete "1"]
               {| disk := Some ("1,A,B,10" ++ String LF ""); stdout := [] |}))
  <> None.
Proof.
  refine (session_keeps_file [Delete "1"; View; Delete "1"]
            {| disk := Some ("1,A,B,10" ++ String LF ""); stdout := [] |} _).
  discriminate.
Defined.

(** The menu on the keys of a list of commands does what the session of
    these commands does to the file and ends as it ends, whatever has
    been printed before on either side. *)
Lemma menu_typed (cs : list command) (rest : list string) :
  forall (d : option string) (o1 o2 : list string),
  exists o',
    match session cs {| disk := d; stdout := o1 |} with
    | (Return _, w') =>
        menu (typed cs ++ rest) {| disk := d; stdout := o2 |}
        = menu rest {| disk := disk w'; stdout := o' |}
    | (Raise e, w') =>
        menu (typed cs ++ rest) {| disk := d; stdout := o2 |}
        = (Uncaught e, {| disk := disk w'; stdout := o' |})
    end.
Proof.
  induction cs as [|c cs IH]; intros d o1 o2.
  - exists o2. reflexivity.
  - cbn [session typed flat_map]. fold (typed cs).
    rewrite <- app_assoc. unfold bind at 1.
    destruct c as [roll name marks| |roll_no|roll_no];
      cbn [run_command keys app].
    + rewrite menu_add, show_menu_run. cbn [snd].
      rewrite !add_student_run. apply IH.
    + rewrite menu_view, show_menu_run. cbn [snd].
      rewrite !view_students_run.
      destruct d as [content|]; [|apply IH].
      destruct (snd (listing (readlines content)));
        [apply IH | eexists; reflexivity].
    + rewrite menu_search, show_menu_run. cbn [snd].
      rewrite !search_student_run.
      destruct d as [content|]; [|eexists; reflexivity].
      destruct (scan roll_no (readlines content));
        [apply IH | apply IH | eexists; reflexivity].
    + rewrite menu_delete, show_menu_run. cbn [snd].
      rewrite !delete_student_run.
      destruct d as [content|]; [|eexists; reflexivity].
      destruct (sweep roll_no (readlines content) false) as [kept [[|]|]];
        [apply IH | apply IH | eexists; reflexivity].
Qed.

(** X15. Typing the choices and fields of a list of commands and then
    "5" makes the menu loop do to the file what the session of these
    commands does: when every command returns, the program exits with
    the file the session leaves; when one ends in an exception, the
    program ends with that exception and the file as that command left
    it, and the rest of the input is not read. *)
Theorem menu_runs_typed_commands :
  forall (cs : list command) (rest : list string) (w : world),
    (fst (session cs w) = Return tt ->
     fst (menu (typed cs ++ "5" :: rest) w) = Exited
     /\ disk (snd (menu (typed cs ++ "5" :: rest) w))
        = disk (snd (session cs w)))
    /\ (forall e, fst (session cs w) = Raise e ->
        fst (menu (typed cs ++ rest) w) = Uncaught e
        /\ disk (snd (menu (typed cs ++ rest) w))
           = disk (snd (session cs w))).
Proof.
  intros cs rest [d o]. split.
  - destruct (menu_typed cs ("5" :: rest) d o o) as [o' H].
    destruct (session cs {| disk := d; stdout := o |}) as [[[]|e] w'];
      cbn [fst snd]; [|discriminate].
    intros _. rewrite H, menu_exit, show_menu_run. split; reflexivity.
  - intros e. destruct (menu_typed cs rest d o o) as [o' H].
    destruct (session cs {| disk := d; stdout := o |}) as [[[]|e'] w'];
      cbn [fst snd]; [discriminate|].
    intros E. injection E as ->. rewrite H. split; reflexivity.
Qed.

Lemma menu_runs_typed_commands_witness :
  fst (menu (typed [Add "1" "A" "10"; Delete "1"] ++ "5" :: ["x"]) fresh)
  = Exited
  /\ disk (snd (menu (typed [Add "1" "A" "10"; Delete "1"] ++ "5" :: ["x"])
                  fresh))
     = disk (snd (session [Add "1" "A" "10"; Delete "1"] fresh)).
Proof.
  exact (proj1 (menu_runs_typed_commands [Add "1" "A" "10"; Delete "1"]
                  ["x"] fresh) eq_refl).
Defined.

Lemma menu_invalid (choice : string) (rest : list string) (w : world) :
  is_choice choice = false ->
  menu (choice :: rest) w
  = menu rest (snd (print "Invalid choice!" (snd (show_menu w)))).
Proof.
  unfold is_choice. intros H.
  apply orb_false_iff in H as [H H5]. apply orb_false_iff in H as [H H4].
  apply orb_false_iff in H as [H H3]. apply orb_false_iff in H as [H1 H2].
  cbn [menu]. now rewrite H1, H2, H3, H4, H5.
Qed.

(** X16. A choice that is not exactly "1", "2", "3", "4" or "5" (a
    choice with a space around it, the empty line) prints
    "Invalid choice!" after the menu and the loop goes on with the next
    line of input; the file is not touched. *)
Theorem menu_skips_invalid_choices :
  forall (bad rest : list string) (w : world),
    forallb (fun s => negb (is_choice s)) bad = true ->
    menu (bad ++ rest) w
    = menu rest
        {| disk := disk w;
           stdout := (stdout w
                      ++ flat_map (fun _ => banner ++ ["Invalid choice!"])
                           bad)%list |}.
Proof.
  induction bad as [|c bad IH]; intros rest [d o] H.
  - cbn. now rewrite app_nil_r.
  - cbn [forallb] in H. apply andb_true_iff in H as [Hc Hbad].
    apply negb_true_iff in Hc.
    cbn [app]. rewrite (menu_invalid _ _ _ Hc), show_menu_run.
    unfold print. cbn [snd disk stdout]. rewrite (IH _ _ Hbad).
    cbn [disk stdout flat_map]. now rewrite <- !app_assoc.
Qed.

Lemma menu_skips_invalid_choices_witness :
  menu ([" 1"; ""; "exit"] ++ ["5"]) fresh
  = menu ["5"]
      {| disk := None;
         stdout := flat_map (fun _ => banner ++ ["Invalid choice!"])%list
                     [" 1"; ""; "exit"] |}.
Proof.
  exact (menu_skips_invalid_choices [" 1"; ""; "exit"] ["5"] fresh eq_refl).
Defined.

(** X17. The loop is left normally only by the choice "5": when the
    program exits, a line "5" was among the lines typed. Without one it
    ends at the end of the input or with an uncaught exception. *)
Theorem menu_exits_only_on_5 :
  forall (inputs : list string) (w : world),
    fst (menu inputs w) = Exited -> In "5" inputs.
Proof.
  intros inputs.
  assert (G : forall n inputs, List.length inputs <= n ->
              forall w, fst (menu inputs w) = Exited -> In "5" inputs).
  { induction n as [|n IH]; intros [|c rest] L w; cbn [List.length] in L;
      try lia; try (cbn; discriminate).
    cbn [menu].
    destruct (String.eqb c "1").
    { destruct rest as [|r [|nm [|m rest']]]; try (cbn; discriminate).
      destruct (add_student r nm m (snd (show_menu w))) as [[[]|e] w2];
        [|cbn; discriminate].
      intros H. right. right. right. right.
      apply (IH rest') in H; [assumption | cbn [List.length] in L; lia]. }
    destruct (String.eqb c "2").
    { destruct (view_students (snd (show_menu w))) as [[[]|e] w2];
        [|cbn; discriminate].
      intros H. right. apply (IH rest) in H; [assumption | lia]. }
    destruct (String.eqb c "3").
    { destruct rest as [|q rest']; [cbn; discriminate|].
      destruct (search_student q (snd (show_menu w))) as [[[]|e] w2];
        [|cbn; discriminate].
      intros H. right. right.
      apply (IH rest') in H; [assumption | cbn [List.length] in L; lia]. }
    destruct (String.eqb c "4").
    { destruct rest as [|q rest']; [cbn; discriminate|].
      destruct (delete_student q (snd (show_menu w))) as [[[]|e] w2];
        [|cbn; discriminate].
      intros H. right. right.
      apply (IH rest') in H; [assumption | cbn [List.length] in L; lia]. }
    destruct (String.eqb_spec c "5") as [->|].
    { intros _. left. reflexivity. }
    intros H. right. apply (IH rest) in H; [assumption | lia]. }
  intros w. apply (G (List.length inputs)). lia.
Qed.

Lemma menu_exits_only_on_5_witness :
  In "5" ["2"; "9"; "5"; "1"].
Proof.
  exact (menu_exits_only_on_5 ["2"; "9"; "5"; "1"] fresh eq_refl).
Defined.

(** X18. When the input ends while [add_student] asks for its fields,
    the program ends there, but the file has already been opened for
    appending: a file that did not exist is then there, empty, and one
    that existed keeps its content. [search_student] and
    [delete_student] ask before they open, so they leave no file
    behind. *)
Theorem add_at_end_of_input_creates_file :
  forall (rest : list string) (d : option string) (o : list string),
    List.length rest < 3 ->
    menu ("1" :: rest) {| disk := d; stdout := o |}
    = (EndOfInput,
       {| disk := Some (match d with Some content => content | None => "" end);
          stdout := (o ++ banner)%list |})
    /\ menu ["3"] {| disk := d; stdout := o |}
       = (EndOfInput, {| disk := d; stdout := (o ++ banner)%list |})
    /\ menu ["4"] {| disk := d; stdout := o |}
       = (EndOfInput, {| disk := d; stdout := (o ++ banner)%list |}).
Proof.
  intros rest d o L.
  split; [|split].
  - destruct rest as [|a [|b [|c rest]]]; cbn [List.length] in L; try lia;
      cbn [menu String.eqb Ascii.eqb Bool.eqb]; rewrite show_menu_run;
      reflexivity.
  - cbn [menu String.eqb Ascii.eqb Bool.eqb]. rewrite show_menu_run.
    reflexivity.
  - cbn [menu String.eqb Ascii.eqb Bool.eqb]. rewrite show_menu_run.
    reflexivity.
Qed.

Lemma add_at_end_of_input_creates_file_witness :
  menu ["1"; "7"; "Ann"] fresh
  = (EndOfInput, {| disk := Some ""; stdout := banner |}).
Proof.
  refine (proj1 (add_at_end_of_input_creates_file ["7"; "Ann"] None [] _)).
  cbn. lia.
Defined.

(** X19. A comma typed in a field, with no line break in the fields,
    makes the next reader stop. On a store of records whose last line is
    ended (or with no file), after [add_student] with such fields
    [view_students] lists the records stored before and ends in
    [ValueError]; [search_student] for a roll that no earlier record has
    ends in [ValueError] without a message; and [delete_student] ends in
    [ValueError] with the file holding only the earlier lines with other
    rolls: the line just added is lost. *)
Theorem comma_in_field_stops_readers :
  forall (roll name marks : string) (d : option string) (o : list string),
    store_ok d = true ->
    console_line roll = true -> console_line name = true ->
    console_line marks = true ->
    contains comma roll || contains comma name || contains comma marks
    = true ->
    let before := match d with Some content => content | None => "" end in
    let line := roll ++ "," ++ name ++ "," ++ marks ++ String LF "" in
    session [Add roll name marks; View] {| disk := d; stdout := o |}
    = (Raise ValueError,
       {| disk := Some (before ++ line);
          stdout := (o ++ ["Student added successfully!";
                           String LF "Roll | Name | Marks";
                           "-------------------"]
                       ++ map row_of (readlines before))%list |})
    /\ (forall roll_no,
           forallb (differs roll_no) (readlines before) = true ->
           session [Add roll name marks; Search roll_no]
             {| disk := d; stdout := o |}
           = (Raise ValueError,
              {| disk := Some (before ++ line);
                 stdout := (o ++ ["Student added successfully!"])%list |}))
    /\ (forall roll_no,
           session [Add roll name marks; Delete roll_no]
             {| disk := d; stdout := o |}
           = (Raise ValueError,
              {| disk := Some (join (filter (keep roll_no)
                                       (readlines before)));
                 stdout := (o ++ ["Student added successfully!"])%list |})).
Proof.
  intros roll name marks d o Hd Cr Cn Cm Hc before line.
  apply store_ok_parts in Hd as [Hw Hb]. fold before in Hw, Hb.
  unfold well_formed in Hw.
  destruct (parse_line_with_comma roll name marks Hc) as [_ P].
  fold (record_line roll name marks) in line.
  assert (R : readlines (before ++ line)
              = (readlines before ++ line :: [])%list).
  { rewrite (readlines_app _ _ Hb). f_equal.
    apply readlines_record_line;
      (now apply console_line_no_LF) || (now apply console_line_no_CR). }
  split; [|split].
  - cbn [session run_command]. unfold bind at 1.
    rewrite add_student_run. fold before. fold line.
    unfold bind at 1. rewrite view_students_run, R.
    rewrite (listing_stops _ _ _ Hw P). cbn [fst snd].
    unfold header. now rewrite <- !app_assoc.
  - intros roll_no Hq. cbn [session run_command]. unfold bind at 1.
    rewrite add_student_run. fold before. fold line.
    unfold bind at 1. rewrite search_student_run, R.
    now rewrite (scan_stops _ _ _ _ Hq P).
  - intros roll_no. cbn [session run_command]. unfold bind at 1.
    rewrite add_student_run. fold before. fold line.
    unfold bind at 1. rewrite delete_student_run, R.
    now rewrite (sweep_stops _ _ _ _ _ Hw P).
Qed.

Lemma comma_in_field_stops_readers_witness :
  session [Add "2" "Lee, Ann" "20"; Delete "9"]
    {| disk := Some (record_line "1" "A" "10"); stdout := [] |}
  = (Raise ValueError,
     {| disk := Some (record_line "1" "A" "10");
        stdout := ["Student added successfully!"] |}).
Proof.
  exact (proj2 (proj2 (comma_in_field_stops_readers "2" "Lee, Ann" "20"
                         (Some (record_line "1" "A" "10")) []
                         eq_refl eq_refl eq_refl eq_refl eq_refl)) "9").
Defined.
